(** * cli-utils: the Windows Terminal profile store ([wt_profile.py])

    A shallow embedding of [WtHandler] (src/cli_utils/wt_profile.py) and the
    properties of its [get_settings], [query], [remove_profile] and
    [add_profile] methods; of the [add] and [remove] commands built on them;
    of the registry update of src/cli_utils/add_to_path.py; and of
    [Telegram.validate] of src/cli_utils/telegram.py.

    Modelling decisions.
    - A value produced by [json.loads] is a [json]: [None], booleans,
      integers, floats, strings, lists and dicts.  A dict is an association
      list in insertion order, which is the order [json.dumps] writes.
    - The settings file is a [content]: either text that [json.loads]
      rejects, or the document it parses to.  [write_text (dumps data)]
      stores the document, so that the next read parses to it again.
    - Methods run in a state-and-exception monad [M] over the file content;
      a raised Python exception is an [exn].
    - [Text] has the document as the text of the file says it, and
      [json.loads] and [json.dumps] between the text and the values: a
      number with a fraction or an exponent is read as the nearest float
      and a float is written as its [repr].
    - A command runs over the settings file and the console; what it prints
      is kept in order.
    - Where a [str] method looks at characters, a character is a code point
      below 256.
    - [pathlib.Path], with its constructor, [str()] and [==], is a parameter
      of the functions of add_to_path.py. *)

From Stdlib Require Import List String Ascii ZArith Bool Arith Lia.
Import ListNotations.
Local Open Scope string_scope.
Local Open Scope list_scope.

(** ** JSON values as Python sees them *)

#[local] Set Warnings "-register-all".

(** A Python [float], an IEEE binary64 value: not a number, an infinity,
    or [(-1)^neg * m * 2^e]; a zero has [m = 0]. *)
Inductive float64 : Type :=
| FNan
| FInf (neg : bool)
| FFin (neg : bool) (m : N) (e : Z).

Inductive json : Type :=
| JNull
| JBool (b : bool)
| JInt (n : Z)
| JFloat (x : float64)
| JStr (s : string)
| JList (l : list json)
| JDict (d : list (string * json)).

(** A Python dict with string keys, in insertion order. *)
Abbreviation dict := (list (string * json)).

(** The exceptions the methods can raise. *)
Inductive exn : Type :=
| Exception_ (msg : string)       (* raise Exception(msg) *)
| JSONDecodeError                 (* json.loads on malformed text *)
| KeyError (key : json)           (* d[key], d.pop(key) on a dict without key *)
| IndexError                      (* list.pop out of range *)
| TypeError                       (* x[key], x + y, iter(x) on a wrong type *)
| AttributeError.                 (* x.get, x.copy, x.pop on a wrong type *)

Inductive result (A : Type) : Type :=
| Ok (a : A)
| Raise (e : exn).
Arguments Ok {A} a.
Arguments Raise {A} e.

(** *** Dict primitives *)

Fixpoint dict_lookup (k : string) (d : dict) : option json :=
  match d with
  | [] => None
  | (k', v) :: rest => if String.eqb k k' then Some v else dict_lookup k rest
  end.

(** [d[k] = v]: an existing key keeps its position, a new key goes last. *)
Fixpoint dict_store (k : string) (v : json) (d : dict) : dict :=
  match d with
  | [] => [(k, v)]
  | (k', v') :: rest =>
      if String.eqb k k' then (k', v) :: rest else (k', v') :: dict_store k v rest
  end.

(** *** Python operators on JSON values *)

(** [bool(x)] *)
Definition truthy (x : json) : bool :=
  match x with
  | JNull => false
  | JBool b => b
  | JInt n => negb (Z.eqb n 0)
  | JFloat x =>
      match x with
      | FFin _ m _ => negb (N.eqb m 0)
      | _ => true
      end
  | JStr s => negb (String.eqb s "")
  | JList l => negb (Nat.eqb (List.length l) 0)
  | JDict d => negb (Nat.eqb (List.length d) 0)
  end.

(** [m1 * 2^e1 = m2 * 2^e2], over the integers. *)
Definition scaled_eqb (m1 e1 m2 e2 : Z) : bool :=
  let low := Z.min e1 e2 in
  Z.eqb (m1 * 2 ^ (e1 - low)) (m2 * 2 ^ (e2 - low)).

(** The signed mantissa of a finite float. *)
Definition signed (neg : bool) (m : N) : Z :=
  if neg then (- Z.of_N m)%Z else Z.of_N m.

(** [x == n] for a float and an integer: the two numbers are compared as
    they are, without rounding. *)
Definition float_eq_int (x : float64) (n : Z) : bool :=
  match x with
  | FFin neg m e => scaled_eqb (signed neg m) e n 0
  | _ => false
  end.

(** [x == y] for two floats: a NaN equals nothing, the two zeros are equal. *)
Definition float_eq (x y : float64) : bool :=
  match x, y with
  | FInf s, FInf t => Bool.eqb s t
  | FFin s m e, FFin t n f => scaled_eqb (signed s m) e (signed t n) f
  | _, _ => false
  end.

(** [a == b].  [bool] is a subclass of [int], numbers compare by value,
    lists compare element by element, dicts compare as maps. *)
Fixpoint py_eq (a b : json) {struct a} : bool :=
  match a, b with
  | JNull, JNull => true
  | JBool x, JBool y => Bool.eqb x y
  | JBool x, JInt n => Z.eqb (Z.b2z x) n
  | JInt n, JBool y => Z.eqb n (Z.b2z y)
  | JInt n, JInt m => Z.eqb n m
  | JFloat x, JFloat y => float_eq x y
  | JFloat x, JInt n => float_eq_int x n
  | JInt n, JFloat y => float_eq_int y n
  | JFloat x, JBool b => float_eq_int x (Z.b2z b)
  | JBool b, JFloat y => float_eq_int y (Z.b2z b)
  | JStr s, JStr t => String.eqb s t
  | JList xs, JList ys =>
      (fix all2 (xs ys : list json) {struct xs} : bool :=
         match xs, ys with
         | [], [] => true
         | x :: xs', y :: ys' => py_eq x y && all2 xs' ys'
         | _, _ => false
         end) xs ys
  | JDict xs, JDict ys =>
      Nat.eqb (List.length xs) (List.length ys) &&
      (fix all_in (xs : list (string * json)) {struct xs} : bool :=
         match xs with
         | [] => true
         | (k, v) :: xs' =>
             match dict_lookup k ys with
             | Some w => py_eq v w && all_in xs'
             | None => false
             end
         end) xs
  | _, _ => false
  end.

(** [x[k]] for a string key [k]. *)
Definition subscript (x : json) (k : string) : result json :=
  match x with
  | JDict d =>
      match dict_lookup k d with
      | Some v => Ok v
      | None => Raise (KeyError (JStr k))
      end
  | _ => Raise TypeError
  end.

(** [x[k] = v] for a string key [k]. *)
Definition set_item (x : json) (k : string) (v : json) : result json :=
  match x with
  | JDict d => Ok (JDict (dict_store k v d))
  | _ => Raise TypeError
  end.

(** [x.get(k)]: only dicts have [get]; a missing key gives [None]. *)
Definition py_get (x : json) (k : string) : result json :=
  match x with
  | JDict d =>
      match dict_lookup k d with
      | Some v => Ok v
      | None => Ok JNull
      end
  | _ => Raise AttributeError
  end.

(** [x.copy()]: a shallow copy, the same value. *)
Definition py_copy (x : json) : result json :=
  match x with
  | JDict _ | JList _ => Ok x
  | _ => Raise AttributeError
  end.

(** The items [for p in x] visits. *)
Definition py_iter (x : json) : result (list json) :=
  match x with
  | JList l => Ok l
  | JDict d => Ok (map (fun kv => JStr (fst kv)) d)
  | JStr s => Ok (map (fun c => JStr (String c EmptyString)) (list_ascii_of_string s))
  | _ => Raise TypeError
  end.

(** [x + r] for a list [r]: only a list can be added to a list. *)
Definition py_add (x : json) (r : list json) : result json :=
  match x with
  | JList l => Ok (JList (l ++ r))
  | _ => Raise TypeError
  end.

(** [l] without its element at position [i]. *)
Fixpoint drop_at (i : nat) (l : list json) : list json :=
  match l, i with
  | [], _ => []
  | _ :: rest, O => rest
  | x :: rest, S j => x :: drop_at j rest
  end.

(** [x.pop(i)] for a non-negative [i]: the element and what is left. *)
Definition py_pop (x : json) (i : nat) : result (json * json) :=
  match x with
  | JList l =>
      match nth_error l i with
      | Some p => Ok (p, JList (drop_at i l))
      | None => Raise IndexError
      end
  | JDict _ => Raise (KeyError (JInt (Z.of_nat i)))
  | _ => Raise AttributeError
  end.

(** ** The settings file and the monad of the methods *)

(** What [self.settings.read_text()] holds, up to [json.loads]. *)
Inductive content : Type :=
| Malformed
| Document (d : json).

Definition M (A : Type) : Type := content -> result A * content.

Definition ret {A : Type} (a : A) : M A := fun s => (Ok a, s).

Definition raise {A : Type} (e : exn) : M A := fun s => (Raise e, s).

Definition bind {A B : Type} (m : M A) (f : A -> M B) : M B :=
  fun s =>
    match m s with
    | (Ok a, s') => f a s'
    | (Raise e, s') => (Raise e, s')
    end.

Definition lift {A : Type} (r : result A) : M A := fun s => (r, s).

Notation "x <- m ;; k" := (bind m (fun x => k))
  (at level 61, m at next level, right associativity).
Notation "m ;;; k" := (bind m (fun _ => k))
  (at level 61, right associativity).

(** [json.loads(self.settings.read_text())] *)
Definition loads_settings : M json :=
  fun s =>
    match s with
    | Malformed => (Raise JSONDecodeError, s)
    | Document d => (Ok d, s)
    end.

(** [self.settings.write_text(json.dumps(data, indent=4))] *)
Definition write_settings (data : json) : M unit :=
  fun _ => (Ok tt, Document data).

(** ** WtHandler *)

(** [Literal["guid", "name", "commandline"]] *)
Inductive field : Type := guid | name | commandline.

Definition field_key (f : field) : string :=
  match f with
  | guid => "guid"
  | name => "name"
  | commandline => "commandline"
  end.

(** The [data] property. *)
Definition data : M json := loads_settings.

(** The [profiles] property: [self.data["profiles"]["list"]]. *)
Definition profiles : M json :=
  d <- data ;;
  p <- lift (subscript d "profiles") ;;
  lift (subscript p "list").

(** The loop of [query]: the first item whose field equals [value]; falling
    off the end returns [None]. *)
Fixpoint query_loop (value : json) (key : string) (items : list json)
  : result json :=
  match items with
  | [] => Ok JNull
  | profile :: rest =>
      match py_get profile key with
      | Raise e => Raise e
      | Ok v => if py_eq v value then Ok profile else query_loop value key rest
      end
  end.

Definition query (value : json) (f : field) : M json :=
  ps <- profiles ;;
  items <- lift (py_iter ps) ;;
  lift (query_loop value (field_key f) items).

(** The loop of [remove_profile] over [enumerate(self.profiles)], counting
    from [i]: the position of the first match, [None] without one. *)
Fixpoint index_loop (value : json) (key : string) (i : nat) (items : list json)
  : result (option nat) :=
  match items with
  | [] => Ok None
  | profile :: rest =>
      match py_get profile key with
      | Raise e => Raise e
      | Ok v => if py_eq v value then Ok (Some i) else index_loop value key (S i) rest
      end
  end.

(** [not index] for [index : int | None]. *)
Definition not_index (index : option nat) : bool :=
  match index with
  | None => true
  | Some i => Nat.eqb i 0
  end.

(** [data["profiles"]["list"] = new] seen through the shallow copy [data]:
    the nested dict is shared, so the copy shows the new list. *)
Definition store_list (d : json) (new : json) : result json :=
  match subscript d "profiles" with
  | Raise e => Raise e
  | Ok p =>
      match set_item p "list" new with
      | Raise e => Raise e
      | Ok p' => set_item d "profiles" p'
      end
  end.

Definition remove_profile (value : json) (f : field) : M json :=
  ps <- profiles ;;
  items <- lift (py_iter ps) ;;
  index <- lift (index_loop value (field_key f) 0 items) ;;
  if not_index index then ret JNull
  else
    d <- data ;;
    d <- lift (py_copy d) ;;
    p <- lift (subscript d "profiles") ;;
    l <- lift (subscript p "list") ;;
    popped <- lift (py_pop l (match index with Some i => i | None => 0 end)) ;;
    d' <- lift (store_list d (snd popped)) ;;
    write_settings d' ;;;
    ret (fst popped).

Definition add_profile (profile : json) : M bool :=
  c <- lift (subscript profile "commandline") ;;
  _profile <- query c commandline ;;
  (if truthy _profile
   then g <- lift (subscript _profile "guid") ;;
        remove_profile g guid ;;;
        ret tt
   else ret tt) ;;;
  d <- data ;;
  d <- lift (py_copy d) ;;
  ps <- profiles ;;
  new <- lift (py_add ps [profile]) ;;
  d' <- lift (store_list d new) ;;
  write_settings d' ;;;
  ret true.

(** [get_settings], over the process environment and the result of
    [Path(dir).glob(pattern)]. *)
Definition settings_pattern : string :=
  "Microsoft.WindowsTerminal_*/LocalState/settings.json".

Definition get_settings (environ : string -> option string)
    (glob : string -> string -> list string) : result string :=
  match environ "LOCALAPPDATA" with
  | None => Raise (Exception_ "Failed to resolve %LOCALAPPDATA%")
  | Some localappdata =>
      if String.eqb localappdata ""
      then Raise (Exception_ "Failed to resolve %LOCALAPPDATA%")
      else
        match glob (localappdata ++ "/Packages")%string settings_pattern with
        | [] => Raise (Exception_ "Failed to resolve Windows Terminal settings.json")
        | first :: _ => Ok first
        end
  end.

(** [WtHandler()] runs [__init__], which stores [get_settings()]. *)
Definition WtHandler_init := get_settings.

(** ** Reading the claims: records, matches and the frame *)

(** A profile's [f] is the string [value]. *)
Definition field_equals (value : string) (f : field) (p : dict) : bool :=
  match dict_lookup (field_key f) p with
  | Some (JStr s) => String.eqb s value
  | _ => false
  end.

(** What the specification says [query] returns: the first profile of the
    list whose field equals the value, [None] when there is none. *)
Definition spec_query (value : string) (f : field) (recs : list dict) : json :=
  match find (field_equals value f) recs with
  | Some p => JDict p
  | None => JNull
  end.

(** The items of a dict under every key but [k], in order. *)
Definition other_items (k : string) (x : json) : list (string * json) :=
  match x with
  | JDict d => filter (fun kv => negb (String.eqb (fst kv) k)) d
  | _ => []
  end.

(** Everything of the document [d] that is not the profile list is the same
    in [d']: the top-level items besides [profiles], and the items of the
    [profiles] object besides [list]. *)
Definition same_frame (d d' : json) : Prop :=
  other_items "profiles" d' = other_items "profiles" d /\
  forall p, subscript d "profiles" = Ok p ->
    exists p', subscript d' "profiles" = Ok p' /\
               other_items "list" p' = other_items "list" p.

Definition frame_kept (s s' : content) : Prop :=
  match s, s' with
  | Malformed, Malformed => True
  | Document d, Document d' => same_frame d d'
  | _, _ => False
  end.

(** The document [JDict top] with the list under [profiles] replaced. *)
Definition with_list (top prof : dict) (new : json) : json :=
  JDict (dict_store "profiles" (JDict (dict_store "list" new prof)) top).

(** ** Outcomes of the methods, for the proofs *)

(** The outcome of [remove_profile] from the outcome of its loop. *)
Definition removal (top prof : dict) (l : list json) (r : result (option nat))
  : result json * content :=
  match r with
  | Raise e => (Raise e, Document (JDict top))
  | Ok None | Ok (Some O) => (Ok JNull, Document (JDict top))
  | Ok (Some (S i)) =>
      match nth_error l (S i) with
      | Some p => (Ok p, Document (with_list top prof (JList (drop_at (S i) l))))
      | None => (Raise IndexError, Document (JDict top))
      end
  end.

(** The statements of [add_profile] after the conflict is resolved. *)
Definition add_tail (profile : json) : M bool :=
  d <- data ;;
  d <- lift (py_copy d) ;;
  ps <- profiles ;;
  new <- lift (py_add ps [profile]) ;;
  d' <- lift (store_list d new) ;;
  write_settings d' ;;;
  ret true.

(** The outcome of [add_profile] on a document whose profile list is [l],
    for a profile whose commandline is [c]. *)
Definition addition (top prof : dict) (l : list json) (profile c : json)
  : result bool * content :=
  let unchanged := Document (JDict top) in
  let appended l' := Document (with_list top prof (JList (l' ++ [profile]))) in
  match query_loop c "commandline" l with
  | Raise e => (Raise e, unchanged)
  | Ok _profile =>
      if truthy _profile then
        match subscript _profile "guid" with
        | Raise e => (Raise e, unchanged)
        | Ok g =>
            match index_loop g "guid" 0 l with
            | Raise e => (Raise e, unchanged)
            | Ok (Some (S i)) =>
                match nth_error l (S i) with
                | Some _ => (Ok true, appended (drop_at (S i) l))
                | None => (Raise IndexError, unchanged)
                end
            | Ok _ => (Ok true, appended l)
            end
        end
      else (Ok true, appended l)
  end.

(** Either nothing was written, or the document was written back with a new
    value under [profiles.list] and nothing else touched. *)
Definition rewritten (s s' : content) : Prop :=
  s' = s \/
  exists top prof old new,
    s = Document (JDict top) /\
    dict_lookup "profiles" top = Some (JDict prof) /\
    dict_lookup "list" prof = Some old /\
    s' = Document (with_list top prof new).


(** ** Sample data *)

Module Sample.

Definition A : dict :=
  [("name", JStr "A"); ("guid", JStr "{1}"); ("commandline", JStr "/x");
   ("hidden", JBool false)].

Definition B : dict :=
  [("name", JStr "B"); ("guid", JStr "{2}"); ("commandline", JStr "/y");
   ("hidden", JBool false)].

(** A record without [name] and [guid]. *)
Definition bare : dict := [("commandline", JStr "/z")].

Definition C : dict :=
  [("name", JStr "C"); ("commandline", JStr "/x"); ("guid", JStr "{3}");
   ("hidden", JBool false)].

Definition settings (l : list dict) : json :=
  JDict [("$schema", JStr "https://aka.ms/terminal-profiles-schema");
         ("profiles", JDict [("defaults", JDict []); ("list", JList (map JDict l))]);
         ("theme", JStr "dark")].

Definition no_environ : string -> option string := fun _ => None.

Definition environ : string -> option string :=
  fun k => if String.eqb k "LOCALAPPDATA" then Some "C:/Users/u/AppData/Local" else None.

Definition empty_glob : string -> string -> list string := fun _ _ => [].

End Sample.

(** ** Reading the further properties *)

(** [l] without its first element that satisfies [g]. *)
Fixpoint without_first {A : Type} (g : A -> bool) (l : list A) : list A :=
  match l with
  | [] => []
  | x :: rest => if g x then rest else x :: without_first g rest
  end.

(** ** The commands of [wt-profile] *)

Module Cli.

(** What a command sends to the console. *)
Inductive printed : Type :=
| Pretty (v : json)     (* console.print(Pretty(v, expand_all=True)) *)
| Text (s : string).    (* console.print(s) *)

(** What a command raises: an exception of the handler, or its own. *)
Inductive cli_exn : Type :=
| Propagated (e : exn)
| BadArgumentUsage (msg : string).

Inductive outcome (A : Type) : Type :=
| Done (a : A)
| Failed (e : cli_exn).
Arguments Done {A} a.
Arguments Failed {A} e.

(** The settings file that [get_settings] resolves, and the console. *)
Record world : Type := World { file : content; console : list printed }.

Definition Cmd (A : Type) : Type := world -> outcome A * world.

Definition cret {A : Type} (a : A) : Cmd A := fun w => (Done a, w).

Definition cbind {A B : Type} (m : Cmd A) (k : A -> Cmd B) : Cmd B :=
  fun w =>
    match m w with
    | (Done a, w') => k a w'
    | (Failed e, w') => (Failed e, w')
    end.

Notation "x <~ m ;; k" := (cbind m (fun x => k))
  (at level 61, m at next level, right associativity).
Notation "m ;;~ k" := (cbind m (fun _ => k))
  (at level 61, right associativity).

Definition fail {A : Type} (e : cli_exn) : Cmd A := fun w => (Failed e, w).

(** [console.print(p)].  A [Text] is kept as it is passed, markup tags
    included; the console reads the tags when it renders the text, so what
    is proved of a text that holds a value of the user is proved for values
    without an opening bracket, in which the console finds no tag. *)
Definition print (p : printed) : Cmd unit :=
  fun w => (Done tt, World (file w) (console w ++ [p])).

(** A method of the handler, run on the settings file. *)
Definition handler {A : Type} (m : M A) : Cmd A :=
  fun w =>
    match m (file w) with
    | (Ok a, s') => (Done a, World s' (console w))
    | (Raise e, s') => (Failed (Propagated e), World s' (console w))
    end.

(** [WtHandler()] *)
Definition construct (environ : string -> option string)
    (glob : string -> string -> list string) : Cmd string :=
  fun w =>
    match WtHandler_init environ glob with
    | Ok settings => (Done settings, w)
    | Raise e => (Failed (Propagated e), w)
    end.

(** [bool(x)] for [x : str | None] *)
Definition given (x : option string) : bool :=
  match x with
  | Some s => negb (String.eqb s "")
  | None => false
  end.

(** [x or y] for [x, y : str | None] *)
Definition py_or (x y : option string) : option string :=
  if given x then x else y.

(** [f"{x}"] for [x : str | None] *)
Definition format_opt (x : option string) : string :=
  match x with
  | Some s => s
  | None => "None"
  end.

(** The profile that [add] builds from the resolved executable path, the
    name, the text of a fresh [uuid4()] and the optional icon path. *)
Definition entry (exe name uuid : string) (icon : option string) : json :=
  let entry :=
    JDict [("name", JStr name); ("commandline", JStr exe);
           ("guid", JStr ("{" ++ uuid ++ "}")); ("hidden", JBool false)] in
  match icon with
  | Some i =>
      match set_item entry "icon" (JStr i) with
      | Ok entry' => entry'
      | Raise _ => entry
      end
  | None => entry
  end.

Definition added_message : string :=
  "[bright_green]INFO  [/] - Profile added successfully".

Definition add (environ : string -> option string)
    (glob : string -> string -> list string)
    (exe name uuid : string) (icon : option string) : Cmd unit :=
  let entry := entry exe name uuid icon in
  print (Pretty entry) ;;~
  construct environ glob ;;~
  handler (add_profile entry) ;;~
  print (Text added_message).

Definition removed_message : string :=
  "[bright_blue]INFO  [/] - Profile removed successfully.".

Definition not_removed_message (guid name : option string) : string :=
  "[bright_red]ERROR [/] - No profile to remove with: [bold cyan]"
  ++ (if given guid then "guid" else "name") ++ " = "
  ++ format_opt (py_or guid name) ++ "[/]".

(** The string of an option that [given] has found truthy. *)
Definition text (x : option string) : string :=
  match x with
  | Some s => s
  | None => ""
  end.

(** [remove], with [guid_] and [name_] for its options [--guid] and
    [--name]; [resp] starts as [False]. *)
Definition remove (environ : string -> option string)
    (glob : string -> string -> list string)
    (guid_ name_ : option string) : Cmd unit :=
  if given guid_ && given name_
  then fail (BadArgumentUsage "Have passed both GUID and Name. Use only one.")
  else
    resp <~ (construct environ glob ;;~
             if given guid_ then handler (remove_profile (JStr (text guid_)) guid)
             else if given name_ then handler (remove_profile (JStr (text name_)) name)
             else cret (JBool false)) ;;
    if truthy resp
    then print (Pretty resp) ;;~ print (Text removed_message)
    else print (Text (not_removed_message guid_ name_)).

(** The field and value that [remove] looks for, if any. *)
Definition target (guid_ name_ : option string) : option (field * string) :=
  if given guid_ then Some (guid, text guid_)
  else if given name_ then Some (name, text name_)
  else None.

End Cli.

(** ** Python [str] methods

    A character of a [string] is a code point below 256. *)

Module PyStr.

Local Open Scope nat_scope.

Definition code (c : ascii) : nat := nat_of_ascii c.

(** [c.isspace()]: what [strip()] removes. *)
Definition is_space (c : ascii) : bool :=
  ((9 <=? code c) && (code c <=? 13)) || ((28 <=? code c) && (code c <=? 32))
  || (code c =? 133) || (code c =? 160).

(** [c.isdigit()]: the digits 0-9 and the superscripts two, three and one. *)
Definition is_digit (c : ascii) : bool :=
  ((48 <=? code c) && (code c <=? 57))
  || (code c =? 178) || (code c =? 179) || (code c =? 185).

(** A decimal digit, which [int()] accepts. *)
Definition is_decimal (c : ascii) : bool := (48 <=? code c) && (code c <=? 57).

Fixpoint all_chars (p : ascii -> bool) (s : string) : bool :=
  match s with
  | EmptyString => true
  | String c rest => p c && all_chars p rest
  end.

(** [s.isdigit()]: a non-empty string of digits. *)
Definition isdigit (s : string) : bool :=
  match s with
  | EmptyString => false
  | _ => all_chars is_digit s
  end.

(** [s[1:]] *)
Definition tail (s : string) : string :=
  match s with
  | EmptyString => EmptyString
  | String _ rest => rest
  end.

(** [s.lstrip(chars)], for the characters that satisfy [p]. *)
Fixpoint lstrip_by (p : ascii -> bool) (s : string) : string :=
  match s with
  | EmptyString => EmptyString
  | String c rest => if p c then lstrip_by p rest else s
  end.

(** [s.rstrip(chars)], for the characters that satisfy [p]. *)
Fixpoint rstrip_by (p : ascii -> bool) (s : string) : string :=
  match s with
  | EmptyString => EmptyString
  | String c rest =>
      match rstrip_by p rest with
      | EmptyString => if p c then EmptyString else String c EmptyString
      | r => String c r
      end
  end.

(** [s.strip()] *)
Definition strip (s : string) : string := lstrip_by is_space (rstrip_by is_space s).

(** [s.split(sep)] for a separator of one character. *)
Fixpoint split_on (sep : ascii) (s : string) : list string :=
  match s with
  | EmptyString => [EmptyString]
  | String c rest =>
      if Ascii.eqb c sep then EmptyString :: split_on sep rest
      else
        match split_on sep rest with
        | [] => [String c EmptyString]
        | w :: ws => String c w :: ws
        end
  end.

(** [bool(s)] *)
Definition nonempty (s : string) : bool := negb (String.eqb s "").

(** [int(s)] for a string that [isdigit()] accepts: its decimal value,
    [None] for the [ValueError] a digit that is not decimal raises. *)
Fixpoint int_from (acc : Z) (s : string) : option Z :=
  match s with
  | EmptyString => Some acc
  | String c rest =>
      if is_decimal c then int_from (10 * acc + (Z.of_nat (code c) - 48))%Z rest
      else None
  end.

Definition int (s : string) : option Z := int_from 0%Z s.

(** The ASCII whitespace that [bytes.fromhex] skips. *)
Definition is_ascii_space (c : ascii) : bool :=
  ((9 <=? code c) && (code c <=? 13)) || (code c =? 32).

Definition hex_value (c : ascii) : option nat :=
  if (48 <=? code c) && (code c <=? 57) then Some (code c - 48)
  else if (97 <=? code c) && (code c <=? 102) then Some (code c - 87)
  else if (65 <=? code c) && (code c <=? 70) then Some (code c - 55)
  else None.

(** [bytes.fromhex(s)]: whitespace is skipped between bytes, each byte is
    two hexadecimal digits side by side; [None] for the [ValueError]. *)
Fixpoint fromhex (s : string) : option (list nat) :=
  match s with
  | EmptyString => Some []
  | String c rest =>
      if is_ascii_space c then fromhex rest
      else
        match hex_value c, rest with
        | Some top, String c' rest' =>
            match hex_value c', fromhex rest' with
            | Some bot, Some bytes => Some (16 * top + bot :: bytes)
            | _, _ => None
            end
        | _, _ => None
        end
  end.

(** A hexadecimal digit. *)
Definition is_hex (c : ascii) : bool :=
  match hex_value c with
  | Some _ => true
  | None => false
  end.

(** How many characters of [s] satisfy [p]. *)
Fixpoint count_chars (p : ascii -> bool) (s : string) : nat :=
  match s with
  | EmptyString => 0
  | String c rest => (if p c then 1 else 0) + count_chars p rest
  end.

End PyStr.

(** ** [add_to_path.py] *)

Module AddToPath.

(** The value named [Path] under [HKEY_CURRENT_USER\Environment]: absent, or
    its data and registry type as [QueryValueEx] returns them. *)
Definition registry : Type := option (string * Z).

Inductive reg_result (A : Type) : Type :=
| Got (a : A)
| FileNotFoundError.     (* QueryValueEx on an absent value *)
Arguments Got {A} a.
Arguments FileNotFoundError {A}.

(** The registry value, the [WM_SETTINGCHANGE] broadcasts sent so far, and
    what was printed. *)
Record world : Type :=
  World { reg : registry; broadcasts : nat; printed : list string }.

Definition read_user_path_reg (r : registry) : reg_result (string * Z) :=
  match r with
  | Some v => Got v
  | None => FileNotFoundError
  end.

(** The entries of a [Path] value that [check_if_exists_in_full_path] turns
    into paths: [entry for entry in value.split(";") if entry.strip()]. *)
Definition entries (value : string) : list string :=
  filter (fun entry => PyStr.nonempty (PyStr.strip entry)) (PyStr.split_on ";" value).

Definition added_message (shown : string) : string :=
  "[blue]INFO[/] : Added [bold magenta]WindowsPath[/]([green]'" ++ shown
  ++ "'[/]) successfully to the PATH.".


Section Paths.

(** [pathlib.Path]: its constructor from a string, [str()] and [==]. *)
Variable path : Type.
Variable Path : string -> path.
Variable path_str : path -> string.
Variable path_eqb : path -> path -> bool.


Definition add_path_to_user_reg (p : path) (w : world) : reg_result unit * world :=
  match read_user_path_reg (reg w) with
  | FileNotFoundError => (FileNotFoundError, w)
  | Got (current_path, reg_type) =>
      let updated_path :=
        (PyStr.rstrip_by (Ascii.eqb ";") current_path ++ ";" ++ path_str p)%string in
      (Got tt, World (Some (updated_path, reg_type)) (S (broadcasts w)) (printed w))
  end.


End Paths.

End AddToPath.

(** ** [telegram.py]: [Telegram.validate] *)

Module Telegram.

Inductive mode : Type := number | api_id | api_hash.

(** [str | int] *)
Inductive validated : Type :=
| VStr (s : string)
| VInt (n : Z).

(** How a call ends: a return, [error(msg, code)] (which prints the message
    and exits with the code), or an exception that nothing catches. *)
Inductive ending : Type :=
| Returned (v : validated)
| Exited (msg : string) (code : Z)
| ValueError.

Definition validate (value : string) (m : mode) : ending :=
  match m with
  | number =>
      let value := if String.prefix "+91" value then value else ("+91" ++ value)%string in
      if (String.length value =? 13)%nat && PyStr.isdigit (PyStr.tail value)
      then Returned (VStr value)
      else Exited ("'" ++ value ++ "' is not a valid phone number.") 4
  | api_id =>
      if PyStr.isdigit value && (String.length value =? 8)%nat
      then match PyStr.int value with
           | Some n => Returned (VInt n)
           | None => ValueError
           end
      else Exited ("'" ++ value ++ "' is not a valid API ID.") 5
  | api_hash =>
      match PyStr.fromhex value with
      | Some bytes =>
          if (List.length bytes =? 16)%nat then Returned (VStr value)
          else Exited ("'" ++ value ++ "' is not a valid API Hash.") 6
      | None => Exited ("'" ++ value ++ "' is not a valid API Hash.") 6
      end
  end.

End Telegram.

(** ** The settings file as text: [json.loads] and [json.dumps]

    [Document d] holds what [json.loads] makes of the file.  This section
    has the document itself, as its text says it, and the two conversions:
    a number written with a fraction or an exponent is read as the nearest
    float, and a float is written in the shortest decimal that reads back
    as the same float. *)

Module Text.

Local Open Scope Z_scope.

(** A JSON document.  [DInt] is a number written as an integer, [DReal] a
    number written with a fraction or an exponent, of value
    [(-1)^neg * digits * 10^exp]; [DInfinity] and [DNaN] are the tokens
    [Infinity], [-Infinity] and [NaN] that Python reads and writes. *)
Inductive jdoc : Type :=
| DNull
| DBool (b : bool)
| DInt (n : Z)
| DReal (neg : bool) (digits : N) (exp : Z)
| DInfinity (neg : bool)
| DNaN
| DStr (s : string)
| DList (l : list jdoc)
| DDict (d : list (string * jdoc)).

(** binary64: 53 bits of mantissa, exponents of the mantissa's unit from
    [emin] to [emax]. *)
Definition emin : Z := -1074.
Definition emax : Z := 971.

(** [n / d >= b^k], for positive [n], [d] and [b]. *)
Definition at_least (b n d k : Z) : bool :=
  d * b ^ Z.max 0 k <=? n * b ^ Z.max 0 (- k).

(** [floor (log2 (n / d))], for positive [n] and [d]. *)
Definition log2_ratio (n d : Z) : Z :=
  let k := Z.log2 n - Z.log2 d in
  if at_least 2 n d k then k else k - 1.

(** [floor (log10 (n / d))], for positive [n] and [d] with [n / d] in the
    range of binary64. *)
Definition log10_ratio (n d : Z) : Z :=
  let est := (log2_ratio n d * 30103) / 100000 in
  if at_least 10 n d (est + 2) then est + 2
  else if at_least 10 n d (est + 1) then est + 1
  else if at_least 10 n d est then est
  else est - 1.

(** The float nearest to [n / d], ties to the even mantissa, with the sign
    [neg]; for [0 <= n] and [0 < d]. *)
Definition round (neg : bool) (n d : Z) : float64 :=
  if n =? 0 then FFin neg 0 emin
  else
    let e := Z.max (log2_ratio n d - 52) emin in
    let num := n * 2 ^ Z.max 0 (- e) in
    let den := d * 2 ^ Z.max 0 e in
    let q := num / den in
    let r := num mod den in
    let m :=
      match 2 * r ?= den with
      | Gt => q + 1
      | Eq => if Z.odd q then q + 1 else q
      | Lt => q
      end in
    let e' := if m =? 2 ^ 53 then e + 1 else e in
    let m' := if m =? 2 ^ 53 then 2 ^ 52 else m in
    if emax <? e' then FInf neg else FFin neg (Z.to_N m') e'.

(** [float(text)] for the number [digits * 10^exp]. *)
Definition float_of_decimal (neg : bool) (digits : N) (exp : Z) : float64 :=
  round neg (Z.of_N digits * 10 ^ Z.max 0 exp) (10 ^ Z.max 0 (- exp)).

(** The same float, bit for bit. *)
Definition float_same (x y : float64) : bool :=
  match x, y with
  | FNan, FNan => true
  | FInf s, FInf t => Bool.eqb s t
  | FFin s m e, FFin t n f => Bool.eqb s t && N.eqb m n && Z.eqb e f
  | _, _ => false
  end.

(** The decimal of [p] digits nearest to [n / d] that reads back as [x]. *)
Definition decimal_of_length (x : float64) (neg : bool) (n d k10 p : Z)
  : option (Z * Z) :=
  let s := k10 - p + 1 in
  let num := n * 10 ^ Z.max 0 (- s) in
  let den := d * 10 ^ Z.max 0 s in
  let lo := num / den in
  let r := num mod den in
  let reads c := float_same (float_of_decimal neg (Z.to_N c) s) x in
  match reads lo, reads (lo + 1) with
  | true, true =>
      match 2 * r ?= den with
      | Lt => Some (lo, s)
      | Gt => Some (lo + 1, s)
      | Eq => if Z.even lo then Some (lo, s) else Some (lo + 1, s)
      end
  | true, false => Some (lo, s)
  | false, true => Some (lo + 1, s)
  | false, false => None
  end.

Fixpoint first_decimal (x : float64) (neg : bool) (n d k10 : Z)
    (lengths : list Z) : option (Z * Z) :=
  match lengths with
  | [] => None
  | p :: rest =>
      match decimal_of_length x neg n d k10 p with
      | Some found => Some found
      | None => first_decimal x neg n d k10 rest
      end
  end.

(** [digits * 10^exp] without the zeros that end [digits]. *)
Fixpoint strip_zeros (fuel : nat) (digits exp : Z) : Z * Z :=
  match fuel with
  | O => (digits, exp)
  | S fuel' =>
      if (digits =? 0) || negb (digits mod 10 =? 0) then (digits, exp)
      else strip_zeros fuel' (digits / 10) (exp + 1)
  end.

(** [repr(x)] for a finite float that is not zero, as digits and exponent:
    the shortest decimal that reads back as [x], the nearest to [x] among
    the shortest; if none of up to 17 digits does, the exact value. *)
Definition repr_decimal (neg : bool) (m : N) (e : Z) : Z * Z :=
  let n := Z.of_N m * 2 ^ Z.max 0 e in
  let d := 2 ^ Z.max 0 (- e) in
  let exact := if 0 <=? e then (n, 0) else (Z.of_N m * 5 ^ (- e), e) in
  let found :=
    match first_decimal (FFin neg m e) neg n d (log10_ratio n d)
            [1; 2; 3; 4; 5; 6; 7; 8; 9; 10; 11; 12; 13; 14; 15; 16; 17] with
    | Some found => found
    | None => exact
    end in
  strip_zeros 400 (fst found) (snd found).

(** The number token that [json.dumps] writes for a float. *)
Definition dumps_float (x : float64) : jdoc :=
  match x with
  | FNan => DNaN
  | FInf neg => DInfinity neg
  | FFin neg m e =>
      if N.eqb m 0 then DReal neg 0 0
      else let r := repr_decimal neg m e in DReal neg (Z.to_N (fst r)) (snd r)
  end.

(** [json.loads]: a key that comes twice keeps the place of the first and
    the value of the last. *)
Fixpoint loads (t : jdoc) : json :=
  match t with
  | DNull => JNull
  | DBool b => JBool b
  | DInt n => JInt n
  | DReal neg digits exp => JFloat (float_of_decimal neg digits exp)
  | DInfinity neg => JFloat (FInf neg)
  | DNaN => JFloat FNan
  | DStr s => JStr s
  | DList l => JList (map loads l)
  | DDict d =>
      JDict (fold_left (fun acc kv => dict_store (fst kv) (snd kv) acc)
               (map (fun kv => (fst kv, loads (snd kv))) d) [])
  end.

(** [json.dumps], up to the layout of the text. *)
Fixpoint dumps (v : json) : jdoc :=
  match v with
  | JNull => DNull
  | JBool b => DBool b
  | JInt n => DInt n
  | JFloat x => dumps_float x
  | JStr s => DStr s
  | JList l => DList (map dumps l)
  | JDict d => DDict (map (fun kv => (fst kv, dumps (snd kv))) d)
  end.

(** [t[k]] in a document. *)
Definition lookup (k : string) (t : jdoc) : option jdoc :=
  match t with
  | DDict d =>
      (fix find (d : list (string * jdoc)) : option jdoc :=
         match d with
         | [] => None
         | (k', v) :: rest => if String.eqb k k' then Some v else find rest
         end) d
  | _ => None
  end.

(** The value of a number token, as [digits * 10^exp]. *)
Definition number_value (t : jdoc) : option (Z * Z) :=
  match t with
  | DInt n => Some (n, 0)
  | DReal neg digits exp => Some (if neg then - Z.of_N digits else Z.of_N digits, exp)
  | _ => None
  end.

(** Two documents say the same thing: the same structure, keys, strings and
    tokens, and numbers of the same value however they are written. *)
Fixpoint same_value (a b : jdoc) {struct a} : bool :=
  match number_value a, number_value b with
  | Some (m1, e1), Some (m2, e2) =>
      let low := Z.min e1 e2 in
      m1 * 10 ^ (e1 - low) =? m2 * 10 ^ (e2 - low)
  | _, _ =>
      match a, b with
      | DNull, DNull => true
      | DBool x, DBool y => Bool.eqb x y
      | DInfinity s, DInfinity t => Bool.eqb s t
      | DNaN, DNaN => true
      | DStr s, DStr t => String.eqb s t
      | DList xs, DList ys =>
          (fix all2 (xs ys : list jdoc) {struct xs} : bool :=
             match xs, ys with
             | [], [] => true
             | x :: xs', y :: ys' => same_value x y && all2 xs' ys'
             | _, _ => false
             end) xs ys
      | DDict xs, DDict ys =>
          (fix all2 (xs ys : list (string * jdoc)) {struct xs} : bool :=
             match xs, ys with
             | [], [] => true
             | (k, x) :: xs', (k', y) :: ys' =>
                 String.eqb k k' && same_value x y && all2 xs' ys'
             | _, _ => false
             end) xs ys
      | _, _ => false
      end
  end.

(** What the claim of a verbatim rewrite says of the text [t] of the file
    before a write and the text [t'] after it: under every top-level key
    other than [profiles], the two say the same thing. *)
Definition kept_in_text (t t' : jdoc) : Prop :=
  forall k, k <> "profiles" ->
    match lookup k t, lookup k t' with
    | Some v, Some v' => same_value v v' = true
    | None, None => True
    | _, _ => False
    end.

End Text.

(** A settings file, as its text says it, with a number beyond binary64
    among its other keys. *)
Module TextSample.

Definition settings : Text.jdoc :=
  Text.DDict
    [("$schema", Text.DStr "https://aka.ms/terminal-profiles-schema");
     ("historySize", Text.DReal false 1 400);
     ("profiles",
      Text.DDict [("defaults", Text.DDict []);
                  ("list", Text.DList [Text.DDict [("name", Text.DStr "B");
                                                   ("guid", Text.DStr "{2}");
                                                   ("commandline", Text.DStr "/y")]])]);
     ("theme", Text.DStr "dark")].

(** What [json.loads] makes of it. *)
Definition loaded : json :=
  JDict
    [("$schema", JStr "https://aka.ms/terminal-profiles-schema");
     ("historySize", JFloat (FInf false));
     ("profiles",
      JDict [("defaults", JDict []);
             ("list", JList [JDict [("name", JStr "B"); ("guid", JStr "{2}");
                                    ("commandline", JStr "/y")]])]);
     ("theme", JStr "dark")].

(** What [add_profile] of [Sample.C] leaves of it. *)
Definition rewritten : json :=
  JDict
    [("$schema", JStr "https://aka.ms/terminal-profiles-schema");
     ("historySize", JFloat (FInf false));
     ("profiles",
      JDict [("defaults", JDict []);
             ("list", JList [JDict [("name", JStr "B"); ("guid", JStr "{2}");
                                    ("commandline", JStr "/y")];
                             JDict Sample.C])]);
     ("theme", JStr "dark")].

End TextSample.

(** ** Dicts *)

Lemma dict_lookup_store_eq k v d : dict_lookup k (dict_store k v d) = Some v.
Proof.
  induction d as [|[k' v'] rest IH]; simpl.
  - now rewrite String.eqb_refl.
  - destruct (String.eqb k k') eqn:E; simpl; rewrite E; auto.
Qed.

Lemma dict_lookup_store_ne k k' v d :
  k <> k' -> dict_lookup k' (dict_store k v d) = dict_lookup k' d.
Proof.
  intros Hne. induction d as [|[k0 v0] rest IH]; simpl.
  - destruct (String.eqb k' k) eqn:E; auto.
    apply String.eqb_eq in E. congruence.
  - destruct (String.eqb k k0) eqn:E; simpl.
    + apply String.eqb_eq in E. subst k0.
      destruct (String.eqb k' k) eqn:E'; auto.
      apply String.eqb_eq in E'. congruence.
    + now rewrite IH.
Qed.

Lemma other_items_store k v d :
  dict_lookup k d <> None ->
  other_items k (JDict (dict_store k v d)) = other_items k (JDict d).
Proof.
  simpl. induction d as [|[k0 v0] rest IH]; simpl; intros Hin.
  - congruence.
  - destruct (String.eqb k k0) eqn:E; simpl.
    + rewrite String.eqb_sym, E. reflexivity.
    + rewrite String.eqb_sym, E. simpl. now rewrite IH.
Qed.

(** ** Python equality against a string *)

Lemma py_eq_str v s : py_eq v (JStr s) = true <-> v = JStr s.
Proof.
  destruct v; simpl; split; intros H; try discriminate; try congruence.
  - apply String.eqb_eq in H. now subst.
  - inversion H. apply String.eqb_refl.
Qed.

Lemma py_get_field_equals value f p :
  exists v, py_get (JDict p) (field_key f) = Ok v /\
            py_eq v (JStr value) = field_equals value f p.
Proof.
  unfold py_get, field_equals.
  destruct (dict_lookup (field_key f) p) as [v|].
  - exists v. split; auto. destruct v; reflexivity.
  - exists JNull. auto.
Qed.

(** ** Running the methods on a document *)

Ltac run_monad :=
  unfold bind, lift, ret, data, loads_settings, write_settings in *; simpl in *.

Lemma profiles_state s : snd (profiles s) = s.
Proof.
  unfold profiles. run_monad.
  destruct s as [|d]; simpl; auto.
  destruct (subscript d "profiles"); simpl; auto.
Qed.

Lemma profiles_inv s v s' :
  profiles s = (Ok v, s') ->
  s' = s /\
  exists top prof,
    s = Document (JDict top) /\
    dict_lookup "profiles" top = Some (JDict prof) /\
    dict_lookup "list" prof = Some v.
Proof.
  intros H. split.
  - pose proof (profiles_state s) as Hs. rewrite H in Hs. exact Hs.
  - unfold profiles in H. run_monad.
    destruct s as [|d]; [discriminate|].
    destruct d as [| | | | | |top]; simpl in H; try discriminate.
    destruct (dict_lookup "profiles" top) as [p|] eqn:Hp; [|discriminate].
    destruct p as [| | | | | |prof]; simpl in H; try discriminate.
    destruct (dict_lookup "list" prof) as [w|] eqn:Hl; [|discriminate].
    inversion H; subst. eauto.
Qed.

Lemma profiles_run top prof v :
  dict_lookup "profiles" top = Some (JDict prof) ->
  dict_lookup "list" prof = Some v ->
  profiles (Document (JDict top)) = (Ok v, Document (JDict top)).
Proof.
  intros Hp Hl. unfold profiles. run_monad. rewrite Hp. simpl. now rewrite Hl.
Qed.

Lemma profiles_with_list top prof new :
  profiles (Document (with_list top prof new))
  = (Ok new, Document (with_list top prof new)).
Proof.
  unfold with_list. apply profiles_run with (prof := dict_store "list" new prof);
    apply dict_lookup_store_eq.
Qed.

Lemma query_state value f s : snd (query value f s) = s.
Proof.
  unfold query, bind.
  destruct (profiles s) as [[ps|e] s'] eqn:Hp;
    pose proof (profiles_state s) as Hs; rewrite Hp in Hs; simpl in Hs; subst s'.
  - unfold lift. destruct (py_iter ps); reflexivity.
  - reflexivity.
Qed.

Lemma query_run top prof l value f :
  dict_lookup "profiles" top = Some (JDict prof) ->
  dict_lookup "list" prof = Some (JList l) ->
  query value f (Document (JDict top))
  = (query_loop value (field_key f) l, Document (JDict top)).
Proof.
  intros Hp Hl. unfold query, bind.
  rewrite (profiles_run _ _ _ Hp Hl). reflexivity.
Qed.

Lemma remove_profile_run top prof l value f :
  dict_lookup "profiles" top = Some (JDict prof) ->
  dict_lookup "list" prof = Some (JList l) ->
  remove_profile value f (Document (JDict top))
  = removal top prof l (index_loop value (field_key f) 0 l).
Proof.
  intros Hp Hl. unfold remove_profile, bind at 1.
  rewrite (profiles_run _ _ _ Hp Hl). run_monad.
  destruct (index_loop value (field_key f) 0 l) as [[[|i]|]|e]; simpl; auto.
  rewrite Hp. simpl. rewrite Hl. simpl.
  destruct l as [|x l']; simpl; auto.
  destruct (nth_error l' i) as [p|]; simpl; auto.
  unfold store_list. simpl. rewrite Hp. reflexivity.
Qed.

(** *** The two loops *)

Lemma index_loop_range value key l : forall i j,
  index_loop value key i l = Ok (Some j) -> i <= j < i + List.length l.
Proof.
  induction l as [|p rest IH]; simpl; intros i j H.
  - discriminate.
  - destruct (py_get p key) as [v|e]; [|discriminate].
    destruct (py_eq v value).
    + inversion H; subst. lia.
    + apply IH in H. lia.
Qed.

Lemma query_loop_records value f recs :
  query_loop (JStr value) (field_key f) (map JDict recs) = Ok (spec_query value f recs).
Proof.
  unfold spec_query. induction recs as [|p rest IH]; simpl map; cbn [query_loop find].
  - reflexivity.
  - destruct (py_get_field_equals value f p) as (v & -> & ->).
    destruct (field_equals value f p); auto.
Qed.

Lemma index_loop_none value f recs : forall i,
  Forall (fun p => field_equals value f p = false) recs ->
  index_loop (JStr value) (field_key f) i (map JDict recs) = Ok None.
Proof.
  induction recs as [|p rest IH]; intros i H; simpl map; cbn [index_loop].
  - reflexivity.
  - inversion H; subst.
    destruct (py_get_field_equals value f p) as (v & -> & ->).
    rewrite H2. now apply IH.
Qed.

Lemma index_loop_records_ok value f recs : forall i,
  exists r, index_loop (JStr value) (field_key f) i (map JDict recs) = Ok r.
Proof.
  induction recs as [|p rest IH]; intros i; simpl map; cbn [index_loop].
  - eauto.
  - destruct (py_get_field_equals value f p) as (v & -> & ->).
    destruct (field_equals value f p); eauto.
Qed.

Lemma drop_at_firstn_skipn l : forall i,
  drop_at i l = firstn i l ++ skipn (S i) l.
Proof.
  induction l as [|x rest IH]; intros [|i]; simpl; auto.
  now rewrite IH.
Qed.

(** *** [add_profile] *)

Lemma add_profile_unfold profile :
  add_profile profile =
  (c <- lift (subscript profile "commandline") ;;
   _profile <- query c commandline ;;
   (if truthy _profile
    then g <- lift (subscript _profile "guid") ;;
         remove_profile g guid ;;;
         ret tt
    else ret tt) ;;;
   add_tail profile).
Proof. reflexivity. Qed.

Lemma dict_store_store k v w d :
  dict_store k w (dict_store k v d) = dict_store k w d.
Proof.
  induction d as [|[k0 v0] rest IH]; simpl.
  - now rewrite String.eqb_refl.
  - destruct (String.eqb k k0) eqn:E; simpl; rewrite E; auto.
    now rewrite IH.
Qed.

Lemma with_list_again top prof v w :
  JDict (dict_store "profiles"
           (JDict (dict_store "list" w (dict_store "list" v prof)))
           (dict_store "profiles" (JDict (dict_store "list" v prof)) top))
  = with_list top prof w.
Proof. unfold with_list. now rewrite !dict_store_store. Qed.

Lemma add_tail_run top prof l profile :
  dict_lookup "profiles" top = Some (JDict prof) ->
  dict_lookup "list" prof = Some (JList l) ->
  add_tail profile (Document (JDict top))
  = (Ok true, Document (with_list top prof (JList (l ++ [profile])))).
Proof.
  intros Hp Hl. unfold add_tail. run_monad.
  unfold bind. rewrite (profiles_run _ _ _ Hp Hl). simpl.
  unfold store_list. simpl. rewrite Hp. reflexivity.
Qed.

Lemma add_tail_with_list top prof l profile :
  add_tail profile (Document (with_list top prof (JList l)))
  = (Ok true, Document (with_list top prof (JList (l ++ [profile])))).
Proof.
  unfold with_list at 1.
  rewrite add_tail_run with (prof := dict_store "list" (JList l) prof) (l := l);
    try apply dict_lookup_store_eq.
  unfold with_list at 1. now rewrite with_list_again.
Qed.

Lemma add_profile_run top prof l profile c :
  dict_lookup "profiles" top = Some (JDict prof) ->
  dict_lookup "list" prof = Some (JList l) ->
  subscript profile "commandline" = Ok c ->
  add_profile profile (Document (JDict top)) = addition top prof l profile c.
Proof.
  intros Hp Hl Hc. rewrite add_profile_unfold. unfold addition.
  unfold bind at 1. unfold lift at 1. rewrite Hc.
  unfold bind at 1. rewrite (query_run _ _ _ c commandline Hp Hl).
  change (field_key commandline) with "commandline".
  destruct (query_loop c "commandline" l) as [_profile|e]; [|reflexivity].
  unfold bind at 1.
  destruct (truthy _profile).
  - unfold bind at 1. unfold lift at 1.
    destruct (subscript _profile "guid") as [g|e]; [|reflexivity].
    unfold bind at 1. rewrite (remove_profile_run _ _ _ g guid Hp Hl).
    change (field_key guid) with "guid".
    destruct (index_loop g "guid" 0 l) as [[[|i]|]|e]; simpl;
      try (now apply add_tail_run); try reflexivity.
    destruct l as [|x l']; [reflexivity|]. simpl.
    destruct (nth_error l' i); [|reflexivity].
    unfold ret. apply (add_tail_with_list top prof (x :: drop_at i l')).
  - unfold ret. now apply add_tail_run.
Qed.

(** ** What a method can do to the file *)

Lemma rewritten_refl s : rewritten s s.
Proof. now left. Qed.

Lemma rewritten_trans s1 s2 s3 :
  rewritten s1 s2 -> rewritten s2 s3 -> rewritten s1 s3.
Proof.
  intros [->|(top & prof & old & new & -> & Hp & Hl & ->)] H23; auto.
  destruct H23 as [->|(top' & prof' & old' & new' & Heq & Hp' & Hl' & ->)].
  - right. now exists top, prof, old, new.
  - right. exists top, prof, old, new'. repeat split; auto.
    unfold with_list in Heq. inversion Heq; subst top'.
    rewrite dict_lookup_store_eq in Hp'. inversion Hp'; subst prof'.
    f_equal. apply with_list_again.
Qed.

Lemma remove_profile_rewritten value f s :
  rewritten s (snd (remove_profile value f s)).
Proof.
  unfold remove_profile, bind at 1.
  destruct (profiles s) as [[ps|e] s'] eqn:Hps.
  2:{ pose proof (profiles_state s) as Hs. rewrite Hps in Hs. simpl in *.
      subst. apply rewritten_refl. }
  apply profiles_inv in Hps. destruct Hps as (-> & top & prof & -> & Hp & Hl).
  run_monad.
  destruct (py_iter ps) as [items|e]; simpl; [|apply rewritten_refl].
  destruct (index_loop value (field_key f) 0 items) as [index|e]; simpl;
    [|apply rewritten_refl].
  destruct (not_index index); simpl; [apply rewritten_refl|].
  rewrite Hp. simpl. rewrite Hl. simpl.
  destruct (py_pop ps _) as [[p rest]|e]; simpl; [|apply rewritten_refl].
  unfold store_list. simpl. rewrite Hp. simpl.
  right. now exists top, prof, ps, rest.
Qed.

Lemma add_tail_rewritten profile s : rewritten s (snd (add_tail profile s)).
Proof.
  unfold add_tail. run_monad.
  destruct s as [|d]; simpl; [apply rewritten_refl|].
  destruct (py_copy d) as [d0|e] eqn:Hc; simpl; [|apply rewritten_refl].
  assert (d0 = d) by (destruct d; simpl in Hc; congruence). subst d0.
  unfold bind.
  destruct (profiles (Document d)) as [[ps|e] s'] eqn:Hps.
  2:{ pose proof (profiles_state (Document d)) as Hs. rewrite Hps in Hs.
      simpl in *. subst. apply rewritten_refl. }
  apply profiles_inv in Hps. destruct Hps as (-> & top & prof & Hd & Hp & Hl).
  inversion Hd; subst d. simpl.
  destruct (py_add ps [profile]) as [new|e]; simpl; [|apply rewritten_refl].
  unfold store_list. simpl. rewrite Hp. simpl.
  right. now exists top, prof, ps, new.
Qed.

Lemma add_profile_rewritten profile s :
  rewritten s (snd (add_profile profile s)).
Proof.
  rewrite add_profile_unfold.
  unfold bind at 1. unfold lift at 1.
  destruct (subscript profile "commandline") as [c|e]; [|apply rewritten_refl].
  unfold bind at 1.
  pose proof (query_state c commandline s) as Hq.
  destruct (query c commandline s) as [[_profile|e] s0]; simpl in Hq; subst s0;
    [|apply rewritten_refl].
  unfold bind at 1.
  destruct (truthy _profile).
  - unfold bind at 1. unfold lift at 1.
    destruct (subscript _profile "guid") as [g|e]; [|apply rewritten_refl].
    unfold bind at 1.
    pose proof (remove_profile_rewritten g guid s) as Hr.
    destruct (remove_profile g guid s) as [[r|e] s1]; simpl in Hr; [|exact Hr].
    unfold ret. eapply rewritten_trans; [exact Hr|apply add_tail_rewritten].
  - unfold ret. apply add_tail_rewritten.
Qed.

Lemma rewritten_frame_kept s s' : rewritten s s' -> frame_kept s s'.
Proof.
  intros [->|(top & prof & old & new & -> & Hp & Hl & ->)].
  - destruct s as [|d]; simpl; auto. split; eauto.
  - simpl. split.
    + unfold with_list. apply other_items_store. congruence.
    + intros p Hsub. simpl in Hsub. rewrite Hp in Hsub. inversion Hsub; subst p.
      exists (JDict (dict_store "list" new prof)). split.
      * unfold with_list. simpl. now rewrite dict_lookup_store_eq.
      * apply other_items_store. congruence.
Qed.

(** *** A document that cannot be read *)




Lemma find_app_last {A : Type} (g : A -> bool) (l : list A) (x : A) :
  Forall (fun a => g a = false) l -> g x = true -> find g (l ++ [x]) = Some x.
Proof.
  induction 1 as [|a l Ha _ IH]; intros Hx; simpl.
  - now rewrite Hx.
  - rewrite Ha. auto.
Qed.

Lemma find_none {A : Type} (g : A -> bool) (l : list A) :
  Forall (fun a => g a = false) l -> find g l = None.
Proof. induction 1 as [|a l Ha _ IH]; simpl; auto. now rewrite Ha. Qed.


(** *** Conflict resolution in [add_profile] *)

Lemma find_middle {A : Type} (g : A -> bool) (pre post : list A) (x : A) :
  Forall (fun a => g a = false) pre -> g x = true ->
  find g (pre ++ x :: post) = Some x.
Proof.
  induction 1 as [|a l Ha _ IH]; intros Hx; simpl.
  - now rewrite Hx.
  - rewrite Ha. auto.
Qed.

Lemma index_loop_middle value f pre p post : forall i,
  Forall (fun r => field_equals value f r = false) pre ->
  field_equals value f p = true ->
  index_loop (JStr value) (field_key f) i (map JDict (pre ++ p :: post))
  = Ok (Some (i + List.length pre)).
Proof.
  induction pre as [|a pre IH]; intros i Hpre Hp; simpl map; cbn [index_loop].
  - destruct (py_get_field_equals value f p) as (v & -> & ->).
    rewrite Hp. simpl. now rewrite Nat.add_0_r.
  - inversion Hpre; subst.
    destruct (py_get_field_equals value f a) as (v & -> & ->).
    rewrite H1, IH; auto. simpl. now rewrite Nat.add_succ_r.
Qed.

Lemma drop_at_middle (pre post : list json) (x : json) :
  drop_at (List.length pre) (pre ++ x :: post) = pre ++ post.
Proof. induction pre as [|a pre IH]; simpl; auto. now rewrite IH. Qed.

Lemma nth_error_middle (pre post : list json) (x : json) :
  nth_error (pre ++ x :: post) (List.length pre) = Some x.
Proof. induction pre as [|a pre IH]; simpl; auto. Qed.

(** The conflicting profile [P1] is replaced when it is not the first entry
    of the list and no entry before it has its guid: [P1] goes and the new
    profile is appended. *)
Lemma add_profile_replaces_past_head
    (d : json) (first : dict) (pre post : list dict) (P1 P2 : dict)
    (c g : string) :
  profiles (Document d)
  = (Ok (JList (map JDict ((first :: pre) ++ P1 :: post))), Document d) ->
  Forall (fun r => field_equals c commandline r = false) (first :: pre) ->
  dict_lookup "commandline" P1 = Some (JStr c) ->
  dict_lookup "guid" P1 = Some (JStr g) ->
  Forall (fun r => field_equals g guid r = false) (first :: pre) ->
  dict_lookup "commandline" P2 = Some (JStr c) ->
  exists s',
    add_profile (JDict P2) (Document d) = (Ok true, s') /\
    profiles s' = (Ok (JList (map JDict ((first :: pre) ++ post ++ [P2]))), s').
Proof.
  intros Hps Hc Hc1 Hg1 Hg Hc2.
  apply profiles_inv in Hps. destruct Hps as (_ & top & prof & Hd & Hp & Hl).
  inversion Hd; subst d. clear Hd.
  assert (HcP : subscript (JDict P2) "commandline" = Ok (JStr c))
    by (simpl; now rewrite Hc2).
  assert (Hm1 : field_equals c commandline P1 = true)
    by (unfold field_equals; simpl field_key; rewrite Hc1; apply String.eqb_refl).
  assert (Hm2 : field_equals g guid P1 = true)
    by (unfold field_equals; simpl field_key; rewrite Hg1; apply String.eqb_refl).
  rewrite (add_profile_run _ _ _ _ _ Hp Hl HcP). unfold addition.
  change "commandline" with (field_key commandline) at 1.
  rewrite query_loop_records. unfold spec_query.
  rewrite (find_middle _ _ post P1 Hc Hm1).
  assert (Ht : truthy (JDict P1) = true).
  { destruct P1; [discriminate Hc1|reflexivity]. }
  rewrite Ht. cbn [subscript]. rewrite Hg1.
  change "guid" with (field_key guid).
  rewrite (index_loop_middle g guid (first :: pre) P1 post 0 Hg Hm2).
  cbn [Nat.add List.length].
  rewrite map_app. cbn [map].
  pose proof (nth_error_middle (JDict first :: map JDict pre) (map JDict post)
                (JDict P1)) as Hn.
  pose proof (drop_at_middle (JDict first :: map JDict pre) (map JDict post)
                (JDict P1)) as Hdrop.
  cbn [List.length app] in Hn, Hdrop. rewrite length_map in Hn, Hdrop.
  cbn [app].
  exists (Document (with_list top prof
            (JList ((JDict first :: map JDict pre ++ map JDict post) ++ [JDict P2])))).
  rewrite Hn, Hdrop. split; [reflexivity|].
  rewrite profiles_with_list. cbn [app map].
  rewrite !map_app. cbn [map]. now rewrite <- app_assoc.
Qed.

(** ** The claims *)

(** C1 (what the code does at a collision on the first entry).  The store
    holds the single profile [A] with commandline [/x]; adding [C] with the
    same commandline leaves [A] in place and appends [C]: two profiles share
    the commandline and the guid of [A] is still present. *)
Theorem add_profile_collision_at_head :
  add_profile (JDict Sample.C) (Document (Sample.settings [Sample.A]))
  = (Ok true, Document (Sample.settings [Sample.A; Sample.C])).
Proof. reflexivity. Qed.

(** C2: when the profile at list position 0 is the first whose field equals
    the value, [remove_profile] returns [None] and writes nothing: the file
    content, and with it the profile list, is unchanged. *)
Theorem remove_profile_at_head_skipped
    (d : json) (p : dict) (rest : list json) (value : string) (f : field) :
  profiles (Document d) = (Ok (JList (JDict p :: rest)), Document d) ->
  field_equals value f p = true ->
  remove_profile (JStr value) f (Document d) = (Ok JNull, Document d).
Proof.
  intros Hps Hm.
  apply profiles_inv in Hps. destruct Hps as (_ & top & prof & Hd & Hp & Hl).
  inversion Hd; subst d.
  rewrite (remove_profile_run _ _ _ (JStr value) f Hp Hl).
  cbn [index_loop].
  destruct (py_get_field_equals value f p) as (v & -> & ->).
  now rewrite Hm.
Qed.

Lemma remove_profile_at_head_skipped_witness :
  remove_profile (JStr "{1}") guid (Document (Sample.settings [Sample.A; Sample.B]))
  = (Ok JNull, Document (Sample.settings [Sample.A; Sample.B])).
Proof.
  apply (remove_profile_at_head_skipped _ Sample.A [JDict Sample.B]); reflexivity.
Defined.

(** C3: for a profile [P] with commandline [c] and a document none of whose
    profiles has commandline [c], [add_profile P] followed by
    [query c "commandline"] returns [P]. *)
Theorem add_then_query
    (d : json) (recs : list dict) (P : dict) (c : string) :
  profiles (Document d) = (Ok (JList (map JDict recs)), Document d) ->
  dict_lookup "commandline" P = Some (JStr c) ->
  Forall (fun r => field_equals c commandline r = false) recs ->
  fst ((add_profile (JDict P) ;;; query (JStr c) commandline) (Document d))
  = Ok (JDict P).
Proof.
  intros Hps Hc Hnone.
  apply profiles_inv in Hps. destruct Hps as (_ & top & prof & Hd & Hp & Hl).
  inversion Hd; subst d.
  assert (HcP : subscript (JDict P) "commandline" = Ok (JStr c))
    by (simpl; now rewrite Hc).
  unfold bind. rewrite (add_profile_run _ _ _ _ _ Hp Hl HcP).
  unfold addition.
  change "commandline" with (field_key commandline) at 1.
  rewrite query_loop_records. unfold spec_query. rewrite (find_none _ _ Hnone).
  cbn [truthy].
  assert (Hq : query (JStr c) commandline
                 (Document (with_list top prof (JList (map JDict recs ++ [JDict P]))))
               = (query_loop (JStr c) "commandline" (map JDict (recs ++ [P])),
                  Document (with_list top prof (JList (map JDict recs ++ [JDict P]))))).
  { rewrite map_app. simpl map. unfold with_list.
    apply query_run with (prof := dict_store "list"
                                    (JList (map JDict recs ++ [JDict P])) prof);
      apply dict_lookup_store_eq. }
  rewrite Hq. simpl fst.
  change "commandline" with (field_key commandline).
  rewrite query_loop_records. unfold spec_query.
  rewrite (find_app_last _ _ P Hnone); auto.
  unfold field_equals. simpl field_key. rewrite Hc. apply String.eqb_refl.
Qed.

Lemma add_then_query_witness :
  fst ((add_profile (JDict Sample.C) ;;; query (JStr "/x") commandline)
         (Document (Sample.settings [Sample.B; Sample.bare])))
  = Ok (JDict Sample.C).
Proof.
  apply (add_then_query _ [Sample.B; Sample.bare]).
  - reflexivity.
  - reflexivity.
  - repeat constructor.
Defined.

(** C4: when no profile's field equals the value, [remove_profile] returns
    [None] and the file content is unchanged: nothing is written, so the
    profile list has the same length and contents. *)
Theorem remove_profile_not_found
    (d : json) (recs : list dict) (value : string) (f : field) :
  profiles (Document d) = (Ok (JList (map JDict recs)), Document d) ->
  Forall (fun r => field_equals value f r = false) recs ->
  remove_profile (JStr value) f (Document d) = (Ok JNull, Document d).
Proof.
  intros Hps Hnone.
  apply profiles_inv in Hps. destruct Hps as (_ & top & prof & Hd & Hp & Hl).
  inversion Hd; subst d.
  rewrite (remove_profile_run _ _ _ (JStr value) f Hp Hl).
  now rewrite index_loop_none.
Qed.

Lemma remove_profile_not_found_witness :
  remove_profile (JStr "{9}") guid
    (Document (Sample.settings [Sample.A; Sample.bare; Sample.B]))
  = (Ok JNull, Document (Sample.settings [Sample.A; Sample.bare; Sample.B])).
Proof.
  apply (remove_profile_not_found _ [Sample.A; Sample.bare; Sample.B]).
  - reflexivity.
  - repeat constructor.
Defined.

Lemma sample_text_loads : Text.loads TextSample.settings = TextSample.loaded.
Proof. vm_compute. reflexivity. Qed.

(** C5 (as the claim states it, of the text of the file): it does not hold
    that after every [add_profile] the text of the file says the same thing
    as before under every top-level key other than [profiles].  A file with
    ["historySize": 1e400] is read with the float infinity under that key,
    and [add_profile] writes the document back with [Infinity] there. *)
Lemma rewrite_changes_number :
  ~ (forall (t : Text.jdoc) (profile d' : json),
       add_profile profile (Document (Text.loads t)) = (Ok true, Document d') ->
       Text.kept_in_text t (Text.dumps d')).
Proof.
  intros H.
  pose proof (H TextSample.settings (JDict Sample.C) TextSample.rewritten) as H1.
  rewrite sample_text_loads in H1.
  assert (Hadd : add_profile (JDict Sample.C) (Document TextSample.loaded)
                 = (Ok true, Document TextSample.rewritten))
    by (vm_compute; reflexivity).
  assert (Hwritten : Text.lookup "historySize" (Text.dumps TextSample.rewritten)
                     = Some (Text.DInfinity false))
    by (vm_compute; reflexivity).
  specialize (H1 Hadd "historySize"). rewrite Hwritten in H1.
  assert (Hkey : "historySize" <> "profiles") by (intros E; inversion E).
  specialize (H1 Hkey). vm_compute in H1. discriminate H1.
Qed.

(** C5 (amended): whatever [remove_profile] or [add_profile] leaves in the
    file has, as [json.loads] reads them, the items of the document before
    the call under every top-level key other than [profiles], and under
    every key of the [profiles] object other than [list], in the same order
    and with the same values.  (The first write of an [add_profile] that
    resolves a conflict is the write of [remove_profile].) *)
Theorem writes_keep_frame (s : content) :
  (forall value f, frame_kept s (snd (remove_profile value f s))) /\
  (forall profile, frame_kept s (snd (add_profile profile s))).
Proof.
  split; intros.
  - apply rewritten_frame_kept, remove_profile_rewritten.
  - apply rewritten_frame_kept, add_profile_rewritten.
Qed.

(** C6: on a document whose profile list is the records [recs], [query]
    returns the first record, in list order, whose field equals the value,
    and [None] when there is none; and in every state of the file, readable
    or not, [query] leaves the content as it was. *)
Theorem query_first_match
    (d : json) (recs : list dict) (value : string) (f : field) :
  profiles (Document d) = (Ok (JList (map JDict recs)), Document d) ->
  query (JStr value) f (Document d) = (Ok (spec_query value f recs), Document d) /\
  (forall v' f' s, snd (query v' f' s) = s).
Proof.
  intros Hps. split; [|intros; apply query_state].
  apply profiles_inv in Hps. destruct Hps as (_ & top & prof & Hd & Hp & Hl).
  inversion Hd; subst d.
  rewrite (query_run _ _ _ (JStr value) f Hp Hl).
  now rewrite query_loop_records.
Qed.

Lemma query_first_match_witness :
  query (JStr "B") name (Document (Sample.settings [Sample.A; Sample.bare; Sample.B]))
  = (Ok (JDict Sample.B), Document (Sample.settings [Sample.A; Sample.bare; Sample.B])) /\
  (forall v' f' s, snd (query v' f' s) = s).
Proof.
  apply (query_first_match _ [Sample.A; Sample.bare; Sample.B] "B" name).
  reflexivity.
Defined.

(** C7: constructing the store raises the exception "Failed to resolve
    %LOCALAPPDATA%" when the environment variable is unset, and the
    exception "Failed to resolve Windows Terminal settings.json" when the
    variable names a base directory under which no path matches the
    settings-file pattern. *)
Theorem get_settings_fails
    (environ : string -> option string) (glob : string -> string -> list string) :
  (environ "LOCALAPPDATA" = None ->
   WtHandler_init environ glob = Raise (Exception_ "Failed to resolve %LOCALAPPDATA%")) /\
  (forall base,
     environ "LOCALAPPDATA" = Some base -> base <> "" ->
     glob (base ++ "/Packages")%string settings_pattern = [] ->
     WtHandler_init environ glob
     = Raise (Exception_ "Failed to resolve Windows Terminal settings.json")).
Proof.
  unfold WtHandler_init, get_settings. split.
  - intros ->. reflexivity.
  - intros base -> Hne Hglob.
    destruct (String.eqb base "") eqn:E.
    + apply String.eqb_eq in E. contradiction.
    + now rewrite Hglob.
Qed.

Lemma get_settings_fails_witness :
  WtHandler_init Sample.no_environ Sample.empty_glob
  = Raise (Exception_ "Failed to resolve %LOCALAPPDATA%") /\
  WtHandler_init Sample.environ Sample.empty_glob
  = Raise (Exception_ "Failed to resolve Windows Terminal settings.json").
Proof.
  split.
  - apply (get_settings_fails Sample.no_environ Sample.empty_glob). reflexivity.
  - apply (get_settings_fails Sample.environ Sample.empty_glob)
      with (base := "C:/Users/u/AppData/Local"); [reflexivity|discriminate|reflexivity].
Defined.



Lemma index_loop_dict value key l : forall i j,
  index_loop value key i l = Ok (Some j) ->
  exists q, nth_error l (j - i) = Some (JDict q).
Proof.
  induction l as [|p rest IH]; simpl; intros i j H.
  - discriminate.
  - destruct (py_get p key) as [v|e] eqn:Hget; [|discriminate].
    destruct (py_eq v value).
    + inversion H; subst. rewrite Nat.sub_diag. simpl.
      destruct p; simpl in Hget; try discriminate. eauto.
    + pose proof (index_loop_range _ _ _ _ _ H) as Hr.
      apply IH in H. destruct H as (q & Hq).
      replace (j - i) with (S (j - S i)) by lia. simpl. eauto.
Qed.

Lemma add_profile_no_commandline profile e s :
  subscript profile "commandline" = Raise e ->
  add_profile profile s = (Raise e, s).
Proof.
  intros Hc. rewrite add_profile_unfold. unfold bind at 1. unfold lift at 1.
  now rewrite Hc.
Qed.

(** C9: on a document whose profile list is [l], [query] leaves the file as
    it is.  [remove_profile] does what its loop over [l] decides: when the
    loop raises, or finds no position or position 0, nothing is written and
    the result is the exception or [None]; when it finds a position past 0,
    the result is the entry there and the list is left with that one entry
    deleted, the others in their order.  [add_profile] writes nothing when it
    raises; when it returns, it returns [True] and the list ends in the new
    profile, after the entries of [l] in their order, all of them or all but
    one; which of the two is decided by the conflict search: all of [l] when
    there is no conflict or the removal finds no position past 0, [l] without
    the entry at the position the removal finds otherwise. *)
Theorem list_order_preserved (d : json) (l : list json) :
  profiles (Document d) = (Ok (JList l), Document d) ->
  (forall value f, snd (query value f (Document d)) = Document d) /\
  (forall value f res s',
     remove_profile value f (Document d) = (res, s') ->
     match index_loop value (field_key f) 0 l with
     | Raise e => res = Raise e /\ s' = Document d
     | Ok (Some (S i)) =>
         exists p,
           nth_error l (S i) = Some p /\ p <> JNull /\ res = Ok p /\
           profiles s' = (Ok (JList (firstn (S i) l ++ skipn (S (S i)) l)), s')
     | Ok _ => res = Ok JNull /\ s' = Document d
     end) /\
  (forall profile res s',
     add_profile profile (Document d) = (res, s') ->
     (forall e, res = Raise e -> s' = Document d) /\
     (forall b, res = Ok b ->
        b = true /\
        exists l',
          profiles s' = (Ok (JList (l' ++ [profile])), s') /\
          (l' = l \/
           exists i, 0 < i < List.length l /\ l' = firstn i l ++ skipn (S i) l)) /\
     (forall c, subscript profile "commandline" = Ok c ->
        match query_loop c "commandline" l with
        | Raise e => res = Raise e
        | Ok _profile =>
            if truthy _profile then
              match subscript _profile "guid" with
              | Raise e => res = Raise e
              | Ok g =>
                  match index_loop g "guid" 0 l with
                  | Raise e => res = Raise e
                  | Ok (Some (S i)) =>
                      res = Ok true /\
                      profiles s'
                      = (Ok (JList ((firstn (S i) l ++ skipn (S (S i)) l)
                                    ++ [profile])), s')
                  | Ok _ =>
                      res = Ok true /\
                      profiles s' = (Ok (JList (l ++ [profile])), s')
                  end
              end
            else res = Ok true /\ profiles s' = (Ok (JList (l ++ [profile])), s')
        end)).
Proof.
  intros Hps.
  apply profiles_inv in Hps. destruct Hps as (_ & top & prof & Hd & Hp & Hl).
  inversion Hd; subst d. clear Hd.
  split; [intros; apply query_state|split].
  - intros value f res s' H.
    rewrite (remove_profile_run _ _ _ value f Hp Hl) in H. unfold removal in H.
    destruct (index_loop value (field_key f) 0 l) as [[[|i]|]|e] eqn:Hi;
      try (inversion H; now split).
    destruct (index_loop_dict _ _ _ _ _ Hi) as (q & Hq).
    rewrite Nat.sub_0_r in Hq. rewrite Hq in H. inversion H; subst.
    exists (JDict q). repeat split; auto; [discriminate|].
    rewrite <- drop_at_firstn_skipn. apply profiles_with_list.
  - intros profile res s' H.
    destruct (subscript profile "commandline") as [c|e] eqn:Hc.
    2:{ rewrite (add_profile_no_commandline _ _ _ Hc) in H. inversion H; subst.
        split; [auto|split].
        - intros b Hb. discriminate.
        - intros c' Hc'. discriminate. }
    rewrite (add_profile_run _ _ _ _ _ Hp Hl Hc) in H. unfold addition in H.
    set (kept := fun l0 : list json =>
           l0 = l \/ exists i, 0 < i < List.length l /\
                               l0 = firstn i l ++ skipn (S i) l).
    assert (Hall : forall l0, kept l0 ->
              (Ok true, Document (with_list top prof (JList (l0 ++ [profile]))))
              = (res, s') ->
              ((forall e, res = Raise e -> s' = Document (JDict top)) /\
               (forall b, res = Ok b ->
                  b = true /\
                  exists l', profiles s' = (Ok (JList (l' ++ [profile])), s') /\
                             kept l')) /\
              (res = Ok true /\
               profiles s' = (Ok (JList (l0 ++ [profile])), s'))).
    { intros l0 Hl0 E. inversion E; subst. split; split.
      - discriminate.
      - intros b Hb. inversion Hb. split; auto. exists l0. split; auto.
        apply profiles_with_list.
      - reflexivity.
      - apply profiles_with_list. }
    assert (Hraise : forall e0,
              (Raise e0, Document (JDict top)) = (res, s') ->
              ((forall e, res = Raise e -> s' = Document (JDict top)) /\
               (forall b, res = Ok b ->
                  b = true /\
                  exists l', profiles s' = (Ok (JList (l' ++ [profile])), s') /\
                             kept l')) /\
              res = Raise e0).
    { intros e0 E. inversion E; subst. split; [split|]; auto.
      intros b Hb. discriminate. }
    assert (Hjoin : forall A B C : Prop, (A /\ B) /\ C -> A /\ B /\ C) by tauto.
    apply Hjoin. clear Hjoin.
    destruct (query_loop c "commandline" l) as [_profile|e] eqn:Hq.
    2:{ destruct (Hraise _ H) as [H12 H3]. split; [exact H12|].
        intros c' Hc'. inversion Hc'; subst c'. now rewrite Hq. }
    destruct (truthy _profile) eqn:Ht.
    2:{ destruct (Hall l (or_introl eq_refl) H) as [H12 H34]. split; [exact H12|].
        intros c' Hc'. inversion Hc'; subst c'. now rewrite Hq, Ht. }
    destruct (subscript _profile "guid") as [g|e] eqn:Hg.
    2:{ destruct (Hraise _ H) as [H12 H3]. split; [exact H12|].
        intros c' Hc'. inversion Hc'; subst c'. now rewrite Hq, Ht, Hg. }
    destruct (index_loop g "guid" 0 l) as [[[|i]|]|e] eqn:Hi.
    + destruct (Hall l (or_introl eq_refl) H) as [H12 H34]. split; [exact H12|].
      intros c' Hc'. inversion Hc'; subst c'. now rewrite Hq, Ht, Hg, Hi.
    + destruct (index_loop_dict _ _ _ _ _ Hi) as (q & Hnth).
      rewrite Nat.sub_0_r in Hnth. rewrite Hnth in H.
      rewrite drop_at_firstn_skipn in H.
      assert (Hl0 : kept (firstn (S i) l ++ skipn (S (S i)) l)).
      { right. exists (S i). split; auto. apply index_loop_range in Hi. lia. }
      destruct (Hall _ Hl0 H) as [H12 H34]. split; [exact H12|].
      intros c' Hc'. inversion Hc'; subst c'. now rewrite Hq, Ht, Hg, Hi.
    + destruct (Hall l (or_introl eq_refl) H) as [H12 H34]. split; [exact H12|].
      intros c' Hc'. inversion Hc'; subst c'. now rewrite Hq, Ht, Hg, Hi.
    + destruct (Hraise _ H) as [H12 H3]. split; [exact H12|].
      intros c' Hc'. inversion Hc'; subst c'. now rewrite Hq, Ht, Hg, Hi.
Qed.

Lemma list_order_preserved_witness :
  exists p,
    nth_error (map JDict [Sample.A; Sample.B; Sample.bare]) 1 = Some p /\
    p <> JNull /\
    Ok (JDict Sample.B) = Ok p /\
    profiles (Document (Sample.settings [Sample.A; Sample.bare]))
    = (Ok (JList (firstn 1 (map JDict [Sample.A; Sample.B; Sample.bare]) ++
                  skipn 2 (map JDict [Sample.A; Sample.B; Sample.bare]))),
       Document (Sample.settings [Sample.A; Sample.bare])).
Proof.
  apply (proj1 (proj2 (list_order_preserved
                         (Sample.settings [Sample.A; Sample.B; Sample.bare])
                         (map JDict [Sample.A; Sample.B; Sample.bare]) eq_refl))
           (JStr "{2}") guid (Ok (JDict Sample.B))
           (Document (Sample.settings [Sample.A; Sample.bare]))).
  reflexivity.
Defined.

(** C10: on a document whose profile list holds records, whatever keys each
    has, [query] and [remove_profile] for a string value return without
    raising; and in both loops a record without the queried key is passed
    over as a non-match, the scan going on with the rest of the list. *)
Theorem missing_field_is_non_match
    (d : json) (recs : list dict) (value : string) (f : field) :
  profiles (Document d) = (Ok (JList (map JDict recs)), Document d) ->
  (exists r, query (JStr value) f (Document d) = (Ok r, Document d)) /\
  (exists r s', remove_profile (JStr value) f (Document d) = (Ok r, s')) /\
  (forall p rest i,
     dict_lookup (field_key f) p = None ->
     query_loop (JStr value) (field_key f) (JDict p :: rest)
     = query_loop (JStr value) (field_key f) rest /\
     index_loop (JStr value) (field_key f) i (JDict p :: rest)
     = index_loop (JStr value) (field_key f) (S i) rest).
Proof.
  intros Hps.
  apply profiles_inv in Hps. destruct Hps as (_ & top & prof & Hd & Hp & Hl).
  inversion Hd; subst d. clear Hd.
  split; [|split].
  - exists (spec_query value f recs).
    rewrite (query_run _ _ _ (JStr value) f Hp Hl).
    now rewrite query_loop_records.
  - rewrite (remove_profile_run _ _ _ (JStr value) f Hp Hl).
    destruct (index_loop_records_ok value f recs 0) as [r Hr].
    rewrite Hr. unfold removal.
    destruct r as [[|i]|]; eauto.
    apply index_loop_range in Hr.
    destruct (nth_error (map JDict recs) (S i)) as [p|] eqn:Hn; eauto.
    apply nth_error_None in Hn. lia.
  - intros p rest i Hnone. cbn [query_loop index_loop].
    unfold py_get. rewrite Hnone. simpl. auto.
Qed.

Lemma missing_field_is_non_match_witness :
  (exists r, query (JStr "B") name
               (Document (Sample.settings [Sample.bare; Sample.A; Sample.B]))
             = (Ok r, Document (Sample.settings [Sample.bare; Sample.A; Sample.B]))) /\
  (exists r s', remove_profile (JStr "B") name
                  (Document (Sample.settings [Sample.bare; Sample.A; Sample.B]))
                = (Ok r, s')) /\
  (forall p rest i,
     dict_lookup (field_key name) p = None ->
     query_loop (JStr "B") (field_key name) (JDict p :: rest)
     = query_loop (JStr "B") (field_key name) rest /\
     index_loop (JStr "B") (field_key name) i (JDict p :: rest)
     = index_loop (JStr "B") (field_key name) (S i) rest).
Proof.
  apply (missing_field_is_non_match _ [Sample.bare; Sample.A; Sample.B] "B" name).
  reflexivity.
Defined.

(** ** Further properties of [WtHandler] *)

Lemma index_loop_find value f recs : forall i,
  match find (field_equals value f) recs with
  | None => index_loop (JStr value) (field_key f) i (map JDict recs) = Ok None
  | Some q =>
      exists j,
        index_loop (JStr value) (field_key f) i (map JDict recs) = Ok (Some (i + j)) /\
        nth_error (map JDict recs) j = Some (JDict q) /\
        drop_at j (map JDict recs)
        = map JDict (without_first (field_equals value f) recs)
  end.
Proof.
  induction recs as [|p rest IH]; intros i; cbn [find map index_loop without_first].
  - reflexivity.
  - destruct (py_get_field_equals value f p) as (v & -> & ->).
    destruct (field_equals value f p).
    + exists 0. rewrite Nat.add_0_r. auto.
    + specialize (IH (S i)).
      destruct (find (field_equals value f) rest) as [q|]; auto.
      destruct IH as (j & H1 & H2 & H3). exists (S j).
      rewrite Nat.add_succ_r. cbn [nth_error drop_at map]. rewrite H3. auto.
Qed.

Lemma remove_profile_records
    (d : json) (p : dict) (rest : list dict) (value : string) (f : field) :
  profiles (Document d) = (Ok (JList (map JDict (p :: rest))), Document d) ->
  field_equals value f p = false ->
  exists s',
    remove_profile (JStr value) f (Document d)
    = (Ok (spec_query value f rest), s') /\
    profiles s'
    = (Ok (JList (map JDict (p :: without_first (field_equals value f) rest))), s').
Proof.
  intros Hps Hp0.
  apply profiles_inv in Hps. destruct Hps as (_ & top & prof & Hd & Hp & Hl).
  inversion Hd; subst d. clear Hd.
  rewrite (remove_profile_run _ _ _ (JStr value) f Hp Hl).
  cbn [map index_loop].
  destruct (py_get_field_equals value f p) as (v & -> & ->). rewrite Hp0.
  pose proof (index_loop_find value f rest 1) as Hfind. unfold spec_query.
  destruct (find (field_equals value f) rest) as [q|] eqn:Hq.
  - destruct Hfind as (j & -> & Hn & Hdrop). cbn [Nat.add removal nth_error].
    rewrite Hn. eexists. split; [reflexivity|].
    rewrite profiles_with_list. cbn [drop_at map]. now rewrite Hdrop.
  - rewrite Hfind. cbn [removal]. eexists. split; [reflexivity|].
    rewrite (profiles_run _ _ _ Hp Hl). cbn [map]. repeat f_equal.
    clear - Hq. induction rest as [|a rest IH]; cbn [find without_first] in *; auto.
    destruct (field_equals value f a); [discriminate|]. now rewrite <- IH.
Qed.

Lemma remove_profile_unmatched
    (d : json) (p : dict) (rest : list dict) (value : string) (f : field) :
  profiles (Document d) = (Ok (JList (map JDict (p :: rest))), Document d) ->
  field_equals value f p = true \/
  Forall (fun r => field_equals value f r = false) (p :: rest) ->
  remove_profile (JStr value) f (Document d) = (Ok JNull, Document d).
Proof.
  intros Hps Hcase.
  apply profiles_inv in Hps. destruct Hps as (_ & top & prof & Hd & Hp & Hl).
  inversion Hd; subst d. clear Hd.
  rewrite (remove_profile_run _ _ _ (JStr value) f Hp Hl).
  destruct Hcase as [Hm|Hnone].
  - cbn [map index_loop].
    destruct (py_get_field_equals value f p) as (v & -> & ->). now rewrite Hm.
  - now rewrite index_loop_none.
Qed.

(** On a list of records whose first entry does not match, [remove_profile]
    returns the first matching record among the others, [None] when there is
    none, and leaves the list without that one record. *)
Theorem remove_profile_first_match
    (d : json) (p : dict) (rest : list dict) (value : string) (f : field) :
  profiles (Document d) = (Ok (JList (map JDict (p :: rest))), Document d) ->
  field_equals value f p = false ->
  exists s',
    remove_profile (JStr value) f (Document d)
    = (Ok (spec_query value f rest), s') /\
    profiles s'
    = (Ok (JList (map JDict (p :: without_first (field_equals value f) rest))), s').
Proof. apply remove_profile_records. Qed.

Lemma remove_profile_first_match_witness :
  exists s',
    remove_profile (JStr "{2}") guid
      (Document (Sample.settings [Sample.A; Sample.bare; Sample.B; Sample.C]))
    = (Ok (JDict Sample.B), s') /\
    profiles s'
    = (Ok (JList (map JDict [Sample.A; Sample.bare; Sample.C])), s').
Proof.
  apply (remove_profile_first_match _ Sample.A [Sample.bare; Sample.B; Sample.C]
           "{2}" guid); reflexivity.
Defined.

(** After [remove_profile] has removed the only profile whose field equals
    the value, which was not the first entry, [query] for the same value and
    field finds nothing. *)
Theorem remove_then_query
    (d : json) (first : dict) (pre post : list dict) (P : dict)
    (value : string) (f : field) :
  profiles (Document d)
  = (Ok (JList (map JDict ((first :: pre) ++ P :: post))), Document d) ->
  Forall (fun r => field_equals value f r = false) (first :: pre) ->
  field_equals value f P = true ->
  Forall (fun r => field_equals value f r = false) post ->
  exists s',
    (remove_profile (JStr value) f ;;; query (JStr value) f) (Document d)
    = (Ok JNull, s') /\
    profiles s' = (Ok (JList (map JDict ((first :: pre) ++ post))), s').
Proof.
  intros Hps Hpre HP Hpost. inversion Hpre as [|? ? Hfirst Hpre']; subst.
  destruct (remove_profile_records d first (pre ++ P :: post) value f Hps Hfirst)
    as (s' & Hrm & Hps').
  assert (Hwf : without_first (field_equals value f) (pre ++ P :: post) = pre ++ post).
  { clear - Hpre' HP. induction Hpre' as [|a l Ha _ IH]; cbn [app without_first].
    - now rewrite HP.
    - rewrite Ha. now rewrite IH. }
  rewrite Hwf in Hps'. exists s'. unfold bind. rewrite Hrm. split; [|exact Hps'].
  pose proof Hps' as Hinv. apply profiles_inv in Hinv.
  destruct Hinv as (_ & top & prof & -> & Hp & Hl).
  rewrite (query_run _ _ _ (JStr value) f Hp Hl).
  rewrite query_loop_records. unfold spec_query.
  rewrite find_none; [reflexivity|].
  constructor; [exact Hfirst|]. apply Forall_app. now split.
Qed.

Lemma remove_then_query_witness :
  exists s',
    (remove_profile (JStr "B") name ;;; query (JStr "B") name)
      (Document (Sample.settings [Sample.A; Sample.bare; Sample.B; Sample.C]))
    = (Ok JNull, s') /\
    profiles s' = (Ok (JList (map JDict [Sample.A; Sample.bare; Sample.C])), s').
Proof.
  apply (remove_then_query _ Sample.A [Sample.bare] [Sample.C] Sample.B "B" name).
  - reflexivity.
  - repeat constructor.
  - reflexivity.
  - repeat constructor.
Defined.

(** When the first entry of the list is a record with the new profile's
    commandline and a string guid, [add_profile] removes nothing: it succeeds
    and leaves the old list, conflicting entry included, followed by the new
    profile. *)
Theorem add_profile_keeps_conflicting_head
    (d : json) (P1 P2 : dict) (rest : list json) (c g : string) :
  profiles (Document d) = (Ok (JList (JDict P1 :: rest)), Document d) ->
  dict_lookup "commandline" P1 = Some (JStr c) ->
  dict_lookup "guid" P1 = Some (JStr g) ->
  dict_lookup "commandline" P2 = Some (JStr c) ->
  exists s',
    add_profile (JDict P2) (Document d) = (Ok true, s') /\
    profiles s' = (Ok (JList (JDict P1 :: rest ++ [JDict P2])), s').
Proof.
  intros Hps Hc1 Hg1 Hc2.
  apply profiles_inv in Hps. destruct Hps as (_ & top & prof & Hd & Hp & Hl).
  inversion Hd; subst d. clear Hd.
  assert (HcP : subscript (JDict P2) "commandline" = Ok (JStr c))
    by (simpl; now rewrite Hc2).
  rewrite (add_profile_run _ _ _ _ _ Hp Hl HcP). unfold addition.
  cbn [query_loop py_get]. rewrite Hc1. cbn [py_eq]. rewrite String.eqb_refl.
  assert (Ht : truthy (JDict P1) = true).
  { destruct P1; [discriminate Hc1|reflexivity]. }
  rewrite Ht. cbn [subscript]. rewrite Hg1.
  cbn [index_loop py_get]. rewrite Hg1. cbn [py_eq]. rewrite String.eqb_refl.
  eexists. split; [reflexivity|]. apply profiles_with_list.
Qed.

Lemma add_profile_keeps_conflicting_head_witness :
  exists s',
    add_profile (JDict Sample.C)
      (Document (Sample.settings [Sample.A; Sample.B])) = (Ok true, s') /\
    profiles s'
    = (Ok (JList (JDict Sample.A :: [JDict Sample.B] ++ [JDict Sample.C])), s').
Proof.
  apply (add_profile_keeps_conflicting_head _ Sample.A Sample.C [JDict Sample.B]
           "/x" "{1}"); reflexivity.
Defined.

(** When the first profile with the new profile's commandline has no [guid]
    key, [add_profile] raises the key error for [guid] and writes nothing. *)
Theorem add_profile_conflict_without_guid
    (d : json) (recs : list dict) (P1 P2 : dict) (c : string) :
  profiles (Document d) = (Ok (JList (map JDict recs)), Document d) ->
  dict_lookup "commandline" P2 = Some (JStr c) ->
  find (field_equals c commandline) recs = Some P1 ->
  dict_lookup "guid" P1 = None ->
  add_profile (JDict P2) (Document d) = (Raise (KeyError (JStr "guid")), Document d).
Proof.
  intros Hps Hc2 Hfind Hg1.
  apply profiles_inv in Hps. destruct Hps as (_ & top & prof & Hd & Hp & Hl).
  inversion Hd; subst d. clear Hd.
  assert (HcP : subscript (JDict P2) "commandline" = Ok (JStr c))
    by (simpl; now rewrite Hc2).
  rewrite (add_profile_run _ _ _ _ _ Hp Hl HcP). unfold addition.
  change "commandline" with (field_key commandline) at 1.
  rewrite query_loop_records. unfold spec_query. rewrite Hfind.
  assert (Ht : truthy (JDict P1) = true).
  { apply find_some in Hfind. destruct Hfind as [_ Hm].
    destruct P1; [discriminate Hm|reflexivity]. }
  rewrite Ht. cbn [subscript]. now rewrite Hg1.
Qed.

Lemma add_profile_conflict_without_guid_witness :
  add_profile (JDict [("name", JStr "Z"); ("commandline", JStr "/z")])
    (Document (Sample.settings [Sample.A; Sample.bare]))
  = (Raise (KeyError (JStr "guid")), Document (Sample.settings [Sample.A; Sample.bare])).
Proof.
  apply (add_profile_conflict_without_guid _ [Sample.A; Sample.bare] Sample.bare _ "/z");
    reflexivity.
Defined.

Lemma add_profile_replaces_run top prof first pre post P1 P2 c g :
  dict_lookup "profiles" top = Some (JDict prof) ->
  dict_lookup "list" prof
  = Some (JList (map JDict ((first :: pre) ++ P1 :: post))) ->
  Forall (fun r => field_equals c commandline r = false) (first :: pre) ->
  dict_lookup "commandline" P1 = Some (JStr c) ->
  dict_lookup "guid" P1 = Some (JStr g) ->
  Forall (fun r => field_equals g guid r = false) (first :: pre) ->
  dict_lookup "commandline" P2 = Some (JStr c) ->
  add_profile (JDict P2) (Document (JDict top))
  = (Ok true,
     Document (with_list top prof (JList (map JDict ((first :: pre) ++ post ++ [P2]))))).
Proof.
  intros Hp Hl Hc Hc1 Hg1 Hg Hc2.
  assert (HcP : subscript (JDict P2) "commandline" = Ok (JStr c))
    by (simpl; now rewrite Hc2).
  assert (Hm1 : field_equals c commandline P1 = true)
    by (unfold field_equals; simpl field_key; rewrite Hc1; apply String.eqb_refl).
  assert (Hm2 : field_equals g guid P1 = true)
    by (unfold field_equals; simpl field_key; rewrite Hg1; apply String.eqb_refl).
  rewrite (add_profile_run _ _ _ _ _ Hp Hl HcP). unfold addition.
  change "commandline" with (field_key commandline) at 1.
  rewrite query_loop_records. unfold spec_query.
  rewrite (find_middle _ _ post P1 Hc Hm1).
  assert (Ht : truthy (JDict P1) = true).
  { destruct P1; [discriminate Hc1|reflexivity]. }
  rewrite Ht. cbn [subscript]. rewrite Hg1.
  change "guid" with (field_key guid).
  rewrite (index_loop_middle g guid (first :: pre) P1 post 0 Hg Hm2).
  cbn [Nat.add List.length].
  rewrite map_app. cbn [map].
  pose proof (nth_error_middle (JDict first :: map JDict pre) (map JDict post)
                (JDict P1)) as Hn.
  pose proof (drop_at_middle (JDict first :: map JDict pre) (map JDict post)
                (JDict P1)) as Hdrop.
  cbn [List.length app] in Hn, Hdrop. rewrite length_map in Hn, Hdrop.
  cbn [app]. rewrite Hn, Hdrop. cbn [app map].
  rewrite !map_app. cbn [map]. now rewrite <- app_assoc.
Qed.

(** Adding the same profile twice leaves the file as adding it once does,
    when the list was not empty and held no entry with the profile's
    commandline or guid: the second call removes the first copy and appends
    the profile again. *)
Theorem add_profile_twice
    (d : json) (first : dict) (more : list dict) (P : dict) (c g : string) :
  profiles (Document d) = (Ok (JList (map JDict (first :: more))), Document d) ->
  dict_lookup "commandline" P = Some (JStr c) ->
  dict_lookup "guid" P = Some (JStr g) ->
  Forall (fun r => field_equals c commandline r = false) (first :: more) ->
  Forall (fun r => field_equals g guid r = false) (first :: more) ->
  exists s',
    add_profile (JDict P) (Document d) = (Ok true, s') /\
    add_profile (JDict P) s' = (Ok true, s') /\
    profiles s' = (Ok (JList (map JDict (first :: more ++ [P]))), s').
Proof.
  intros Hps Hc Hg Hnc Hng.
  apply profiles_inv in Hps. destruct Hps as (_ & top & prof & Hd & Hp & Hl).
  inversion Hd; subst d. clear Hd.
  assert (HcP : subscript (JDict P) "commandline" = Ok (JStr c))
    by (simpl; now rewrite Hc).
  assert (H1 : add_profile (JDict P) (Document (JDict top))
               = (Ok true,
                  Document (with_list top prof (JList (map JDict (first :: more ++ [P])))))).
  { rewrite (add_profile_run _ _ _ _ _ Hp Hl HcP). unfold addition.
    change "commandline" with (field_key commandline) at 1.
    rewrite query_loop_records. unfold spec_query. rewrite (find_none _ _ Hnc).
    cbn [truthy map app]. rewrite map_app. reflexivity. }
  eexists. split; [exact H1|]. split; [|apply profiles_with_list].
  unfold with_list at 1.
  rewrite (add_profile_replaces_run _ (dict_store "list"
             (JList (map JDict (first :: more ++ [P]))) prof)
             first more [] P P c g); auto using dict_lookup_store_eq.
  f_equal. f_equal. unfold with_list at 1. rewrite with_list_again.
  reflexivity.
Qed.

Lemma add_profile_twice_witness :
  exists s',
    add_profile (JDict Sample.C) (Document (Sample.settings [Sample.B; Sample.bare]))
    = (Ok true, s') /\
    add_profile (JDict Sample.C) s' = (Ok true, s') /\
    profiles s'
    = (Ok (JList (map JDict (Sample.B :: [Sample.bare] ++ [Sample.C]))), s').
Proof.
  apply (add_profile_twice _ Sample.B [Sample.bare] Sample.C "/x" "{3}");
    try reflexivity; repeat constructor.
Defined.

(** [get_settings] returns a path exactly when [LOCALAPPDATA] is set to a
    non-empty string and the glob under its [Packages] folder has a match,
    and the path is the first match; an empty [LOCALAPPDATA] fails like an
    unset one. *)
Theorem get_settings_resolves
    (environ : string -> option string) (glob : string -> string -> list string)
    (p : string) :
  get_settings environ glob = Ok p <->
  exists base others,
    environ "LOCALAPPDATA" = Some base /\ base <> "" /\
    glob (base ++ "/Packages")%string settings_pattern = p :: others.
Proof.
  unfold get_settings. split.
  - destruct (environ "LOCALAPPDATA") as [base|]; [|discriminate].
    destruct (String.eqb base "") eqn:E; [discriminate|].
    apply String.eqb_neq in E.
    destruct (glob _ _) as [|q others] eqn:Hg; [discriminate|].
    intros H. inversion H; subst. eauto.
  - intros (base & others & -> & Hne & Hg).
    apply String.eqb_neq in Hne. now rewrite Hne, Hg.
Qed.

(** ** The commands *)

Lemma spec_query_truthy value f recs q :
  find (field_equals value f) recs = Some q ->
  spec_query value f recs = JDict q /\ truthy (JDict q) = true.
Proof.
  intros Hfind. unfold spec_query. rewrite Hfind. split; auto.
  apply find_some in Hfind. destruct Hfind as [_ Hm].
  destruct q; [discriminate Hm|reflexivity].
Qed.

Lemma remove_unfold environ glob guid_ name_ f value settings w :
  Cli.given guid_ && Cli.given name_ = false ->
  Cli.target guid_ name_ = Some (f, value) ->
  WtHandler_init environ glob = Ok settings ->
  Cli.remove environ glob guid_ name_ w
  = match remove_profile (JStr value) f (Cli.file w) with
    | (Ok resp, s') =>
        if truthy resp
        then (Cli.Done tt,
              Cli.World s' (Cli.console w ++ [Cli.Pretty resp; Cli.Text Cli.removed_message]))
        else (Cli.Done tt,
              Cli.World s' (Cli.console w
                            ++ [Cli.Text (Cli.not_removed_message guid_ name_)]))
    | (Raise e, s') => (Cli.Failed (Cli.Propagated e), Cli.World s' (Cli.console w))
    end.
Proof.
  intros Hboth Htarget Hinit. unfold Cli.remove. rewrite Hboth.
  unfold Cli.cbind at 1. unfold Cli.cbind at 1. unfold Cli.construct. rewrite Hinit.
  unfold Cli.target in Htarget.
  assert (Hrun : (if Cli.given guid_
                  then Cli.handler (remove_profile (JStr (Cli.text guid_)) guid)
                  else if Cli.given name_
                       then Cli.handler (remove_profile (JStr (Cli.text name_)) name)
                       else Cli.cret (JBool false))
                 = Cli.handler (remove_profile (JStr value) f)).
  { destruct (Cli.given guid_); [now inversion Htarget|].
    destruct (Cli.given name_); [now inversion Htarget|discriminate]. }
  rewrite Hrun. unfold Cli.handler.
  destruct (remove_profile (JStr value) f (Cli.file w)) as [[resp|e] s']; auto.
  destruct (truthy resp); unfold Cli.cbind, Cli.print; simpl; auto.
  now rewrite <- app_assoc.
Qed.

(** With one of [--guid] and [--name], a resolved settings file and a list of
    records whose first entry does not match but a later one does, [remove]
    prints the removed record and the success message, and the file's list
    has lost that one record. *)
Theorem remove_command_reports_removal
    (environ : string -> option string) (glob : string -> string -> list string)
    (guid_ name_ : option string) (f : field) (value settings : string)
    (w : Cli.world) (d : json) (p q : dict) (rest : list dict) :
  Cli.given guid_ && Cli.given name_ = false ->
  Cli.target guid_ name_ = Some (f, value) ->
  WtHandler_init environ glob = Ok settings ->
  Cli.file w = Document d ->
  profiles (Document d) = (Ok (JList (map JDict (p :: rest))), Document d) ->
  field_equals value f p = false ->
  find (field_equals value f) rest = Some q ->
  exists s',
    Cli.remove environ glob guid_ name_ w
    = (Cli.Done tt,
       Cli.World s' (Cli.console w
                     ++ [Cli.Pretty (JDict q); Cli.Text Cli.removed_message])) /\
    profiles s'
    = (Ok (JList (map JDict (p :: without_first (field_equals value f) rest))), s').
Proof.
  intros Hboth Htarget Hinit Hfile Hps Hp Hfind.
  rewrite (remove_unfold _ _ _ _ f value settings w Hboth Htarget Hinit). rewrite Hfile.
  destruct (remove_profile_records d p rest value f Hps Hp) as (s' & -> & Hps').
  destruct (spec_query_truthy _ _ _ _ Hfind) as [-> ->].
  exists s'. auto.
Qed.

Lemma remove_command_reports_removal_witness :
  exists s',
    Cli.remove Sample.environ (fun _ _ => ["settings.json"]) None (Some "B")
      (Cli.World (Document (Sample.settings [Sample.A; Sample.B; Sample.C])) [])
    = (Cli.Done tt,
       Cli.World s' ([] ++ [Cli.Pretty (JDict Sample.B); Cli.Text Cli.removed_message])) /\
    profiles s' = (Ok (JList (map JDict [Sample.A; Sample.C])), s').
Proof.
  apply (remove_command_reports_removal Sample.environ (fun _ _ => ["settings.json"])
           None (Some "B") name "B" "settings.json"
           (Cli.World (Document (Sample.settings [Sample.A; Sample.B; Sample.C])) [])
           (Sample.settings [Sample.A; Sample.B; Sample.C])
           Sample.A Sample.B [Sample.B; Sample.C]); reflexivity.
Defined.

(** With one of [--guid] and [--name], whose value holds no opening bracket
    (so that the console finds no markup tag in it when it prints the
    message), and a resolved settings file, [remove] prints the "No profile
    to remove" message and leaves the file as it is both when no record
    matches and when the first entry of the list matches. *)
Theorem remove_command_reports_nothing
    (environ : string -> option string) (glob : string -> string -> list string)
    (guid_ name_ : option string) (f : field) (value settings : string)
    (w : Cli.world) (d : json) (p : dict) (rest : list dict) :
  Cli.given guid_ && Cli.given name_ = false ->
  Cli.target guid_ name_ = Some (f, value) ->
  PyStr.all_chars (fun c => negb (Ascii.eqb c "[")) value = true ->
  WtHandler_init environ glob = Ok settings ->
  Cli.file w = Document d ->
  profiles (Document d) = (Ok (JList (map JDict (p :: rest))), Document d) ->
  field_equals value f p = true \/
  Forall (fun r => field_equals value f r = false) (p :: rest) ->
  Cli.remove environ glob guid_ name_ w
  = (Cli.Done tt,
     Cli.World (Cli.file w)
       (Cli.console w ++ [Cli.Text (Cli.not_removed_message guid_ name_)])).
Proof.
  intros Hboth Htarget Hplain Hinit Hfile Hps Hcase.
  rewrite (remove_unfold _ _ _ _ f value settings w Hboth Htarget Hinit). rewrite Hfile.
  now rewrite (remove_profile_unmatched d p rest value f Hps Hcase).
Qed.

Lemma remove_command_reports_nothing_witness :
  Cli.remove Sample.environ (fun _ _ => ["settings.json"]) (Some "{1}") None
    (Cli.World (Document (Sample.settings [Sample.A; Sample.B])) [])
  = (Cli.Done tt,
     Cli.World (Document (Sample.settings [Sample.A; Sample.B]))
       [Cli.Text "[bright_red]ERROR [/] - No profile to remove with: [bold cyan]guid = {1}[/]"]).
Proof.
  apply (remove_command_reports_nothing Sample.environ (fun _ _ => ["settings.json"])
           (Some "{1}") None guid "{1}" "settings.json"
           (Cli.World (Document (Sample.settings [Sample.A; Sample.B])) [])
           (Sample.settings [Sample.A; Sample.B]) Sample.A [Sample.B]);
    try reflexivity.
  left. reflexivity.
Defined.

(** With a resolved settings file and a list of records none of which has
    the executable as commandline, [add] prints the entry and the success
    message, and afterwards [query] by that commandline returns the entry:
    the given name, the uuid in braces as guid, [hidden] false, and the icon
    exactly when one was given. *)
Theorem add_command_then_query
    (environ : string -> option string) (glob : string -> string -> list string)
    (exe name_ uuid settings : string) (icon : option string)
    (w : Cli.world) (d : json) (recs : list dict) :
  WtHandler_init environ glob = Ok settings ->
  Cli.file w = Document d ->
  profiles (Document d) = (Ok (JList (map JDict recs)), Document d) ->
  Forall (fun r => field_equals exe commandline r = false) recs ->
  let e := Cli.entry exe name_ uuid icon in
  exists s',
    Cli.add environ glob exe name_ uuid icon w
    = (Cli.Done tt,
       Cli.World s' (Cli.console w ++ [Cli.Pretty e; Cli.Text Cli.added_message])) /\
    query (JStr exe) commandline s' = (Ok e, s') /\
    subscript e "name" = Ok (JStr name_) /\
    subscript e "guid" = Ok (JStr ("{" ++ uuid ++ "}")) /\
    subscript e "hidden" = Ok (JBool false) /\
    py_get e "icon" = Ok (match icon with Some i => JStr i | None => JNull end).
Proof.
  intros Hinit Hfile Hps Hnone e.
  apply profiles_inv in Hps. destruct Hps as (_ & top & prof & Hd & Hp & Hl).
  inversion Hd; subst d. clear Hd.
  assert (He : exists P, e = JDict P /\ dict_lookup "commandline" P = Some (JStr exe)).
  { unfold e, Cli.entry. destruct icon; simpl; eauto. }
  destruct He as (P & HeP & HcP).
  assert (Hfields :
            subscript e "name" = Ok (JStr name_) /\
            subscript e "guid" = Ok (JStr ("{" ++ uuid ++ "}")) /\
            subscript e "hidden" = Ok (JBool false) /\
            py_get e "icon" = Ok (match icon with Some i => JStr i | None => JNull end)).
  { unfold e, Cli.entry. destruct icon; simpl; auto. }
  unfold Cli.add. cbv zeta. fold e. clearbody e. subst e.
  assert (Hsub : subscript (JDict P) "commandline" = Ok (JStr exe))
    by (simpl; now rewrite HcP).
  assert (Hadd : add_profile (JDict P) (Document (JDict top))
                 = (Ok true,
                    Document (with_list top prof (JList (map JDict (recs ++ [P])))))).
  { rewrite (add_profile_run _ _ _ _ _ Hp Hl Hsub). unfold addition.
    change "commandline" with (field_key commandline) at 1.
    rewrite query_loop_records. unfold spec_query. rewrite (find_none _ _ Hnone).
    cbn [truthy]. now rewrite map_app. }
  exists (Document (with_list top prof (JList (map JDict (recs ++ [P]))))).
  split; [|split; [|exact Hfields]].
  - unfold Cli.cbind, Cli.print, Cli.construct, Cli.handler.
    rewrite Hinit. cbn [Cli.file Cli.console]. rewrite Hfile.
    cbn [Cli.file Cli.console]. rewrite Hadd.
    cbn [Cli.file Cli.console]. now rewrite <- app_assoc.
  - unfold with_list.
    rewrite query_run with (prof := dict_store "list" (JList (map JDict (recs ++ [P]))) prof)
                           (l := map JDict (recs ++ [P]));
      try apply dict_lookup_store_eq.
    f_equal. rewrite query_loop_records. unfold spec_query.
    rewrite (find_app_last _ _ P Hnone); auto.
    unfold field_equals. simpl field_key. rewrite HcP. apply String.eqb_refl.
Qed.

Lemma add_command_then_query_witness :
  let e := Cli.entry "/z/pwsh.exe" "PowerShell" "1b4e28ba-2fa1-11d2-883f-0016d3cca427"
             (Some "/z/pwsh.ico") in
  exists s',
    Cli.add Sample.environ (fun _ _ => ["settings.json"]) "/z/pwsh.exe" "PowerShell"
      "1b4e28ba-2fa1-11d2-883f-0016d3cca427" (Some "/z/pwsh.ico")
      (Cli.World (Document (Sample.settings [Sample.A; Sample.B])) [])
    = (Cli.Done tt, Cli.World s' ([] ++ [Cli.Pretty e; Cli.Text Cli.added_message])) /\
    query (JStr "/z/pwsh.exe") commandline s' = (Ok e, s') /\
    subscript e "name" = Ok (JStr "PowerShell") /\
    subscript e "guid" = Ok (JStr ("{" ++ "1b4e28ba-2fa1-11d2-883f-0016d3cca427" ++ "}")) /\
    subscript e "hidden" = Ok (JBool false) /\
    py_get e "icon" = Ok (JStr "/z/pwsh.ico").
Proof.
  apply (add_command_then_query Sample.environ (fun _ _ => ["settings.json"])
           "/z/pwsh.exe" "PowerShell" "1b4e28ba-2fa1-11d2-883f-0016d3cca427"
           "settings.json" (Some "/z/pwsh.ico")
           (Cli.World (Document (Sample.settings [Sample.A; Sample.B])) [])
           (Sample.settings [Sample.A; Sample.B]) [Sample.A; Sample.B]);
    try reflexivity.
  repeat constructor.
Defined.

(** ** [add_to_path.py] *)

Lemma split_on_cons sep s : exists w ws, PyStr.split_on sep s = w :: ws.
Proof.
  induction s as [|c rest IH]; simpl; eauto.
  destruct (Ascii.eqb c sep); eauto.
  destruct IH as (w & ws & ->). eauto.
Qed.

Lemma split_on_app sep a b :
  PyStr.split_on sep (a ++ String sep b)
  = PyStr.split_on sep a ++ PyStr.split_on sep b.
Proof.
  induction a as [|c rest IH]; simpl.
  - now rewrite Ascii.eqb_refl.
  - destruct (Ascii.eqb c sep); [now rewrite IH|].
    rewrite IH. destruct (split_on_cons sep rest) as (w & ws & ->). reflexivity.
Qed.

Lemma split_on_without sep b :
  PyStr.all_chars (fun c => negb (Ascii.eqb c sep)) b = true ->
  PyStr.split_on sep b = [b].
Proof.
  induction b as [|c rest IH]; simpl; auto.
  intros H. apply andb_prop in H. destruct H as [Hc Hrest].
  apply negb_true_iff in Hc. rewrite Hc, (IH Hrest). reflexivity.
Qed.

Lemma rstrip_by_empty sep s :
  PyStr.rstrip_by (Ascii.eqb sep) s = "" ->
  PyStr.split_on sep s = "" :: repeat "" (String.length s).
Proof.
  induction s as [|c rest IH]; simpl; auto.
  destruct (PyStr.rstrip_by (Ascii.eqb sep) rest) eqn:Hr; [|discriminate].
  destruct (Ascii.eqb sep c) eqn:E; [|discriminate]. intros _.
  rewrite Ascii.eqb_sym, E. now rewrite IH.
Qed.

Lemma split_on_rstrip sep s :
  exists k,
    PyStr.split_on sep s
    = PyStr.split_on sep (PyStr.rstrip_by (Ascii.eqb sep) s) ++ repeat "" k.
Proof.
  induction s as [|c rest IH]; simpl.
  - exists 0. reflexivity.
  - destruct IH as (k & IH).
    destruct (PyStr.rstrip_by (Ascii.eqb sep) rest) as [|c' r] eqn:Hr.
    + destruct (Ascii.eqb sep c) eqn:E.
      * rewrite Ascii.eqb_sym, E. rewrite (rstrip_by_empty _ _ Hr).
        exists (S (String.length rest)). reflexivity.
      * simpl. rewrite Ascii.eqb_sym, E. rewrite IH. simpl. exists k. reflexivity.
    + remember (String c' r) as r'. simpl.
      destruct (Ascii.eqb c sep).
      * rewrite IH. exists k. reflexivity.
      * rewrite IH. destruct (split_on_cons sep r') as (w & ws & ->).
        exists k. reflexivity.
Qed.

Lemma entries_rstrip value :
  AddToPath.entries (PyStr.rstrip_by (Ascii.eqb ";") value) = AddToPath.entries value.
Proof.
  unfold AddToPath.entries.
  destruct (split_on_rstrip ";" value) as (k & ->).
  rewrite filter_app.
  assert (Hblank : forall n, filter (fun entry => PyStr.nonempty (PyStr.strip entry))
                               (repeat "" n) = []).
  { induction n; simpl; auto. }
  now rewrite Hblank, app_nil_r.
Qed.

Lemma entries_appended old shown :
  AddToPath.entries (PyStr.rstrip_by (Ascii.eqb ";") old ++ ";" ++ shown)
  = AddToPath.entries old ++ AddToPath.entries shown.
Proof.
  rewrite <- (entries_rstrip old). unfold AddToPath.entries.
  change (";" ++ shown)%string with (String ";" shown).
  now rewrite split_on_app, filter_app.
Qed.

Lemma entries_single shown :
  PyStr.all_chars (fun c => negb (Ascii.eqb c ";")) shown = true ->
  PyStr.strip shown <> "" ->
  AddToPath.entries shown = [shown].
Proof.
  intros Hsep Hblank. unfold AddToPath.entries.
  rewrite (split_on_without _ _ Hsep). simpl. unfold PyStr.nonempty.
  apply String.eqb_neq in Hblank. now rewrite Hblank.
Qed.


(** [add_path_to_user_reg] keeps the registry type and every entry of the
    old value, in order, and puts the entries of the new path's text after
    them: trailing semicolons of the old value leave no empty entry behind.
    A text without semicolon that is not blank is one entry, itself. *)
Theorem add_path_keeps_entries
    (path : Type) (path_str : path -> string) (p : path)
    (w : AddToPath.world) (old : string) (reg_type : Z) :
  AddToPath.reg w = Some (old, reg_type) ->
  exists w' new,
    AddToPath.add_path_to_user_reg path path_str p w = (AddToPath.Got tt, w') /\
    AddToPath.reg w' = Some (new, reg_type) /\
    AddToPath.entries new = AddToPath.entries old ++ AddToPath.entries (path_str p) /\
    (PyStr.all_chars (fun c => negb (Ascii.eqb c ";")) (path_str p) = true ->
     PyStr.strip (path_str p) <> "" ->
     AddToPath.entries (path_str p) = [path_str p]).
Proof.
  intros Hreg. unfold AddToPath.add_path_to_user_reg.
  rewrite Hreg. simpl. eexists. eexists. split; [reflexivity|]. split; [reflexivity|].
  split; [apply entries_appended|apply entries_single].
Qed.

Lemma add_path_keeps_entries_witness :
  exists w' new,
    AddToPath.add_path_to_user_reg string (fun s => s) "D:\tools"
      (AddToPath.World (Some ("C:\bin; ;C:\Program Files\Git;;", 2%Z)) 0 [])
    = (AddToPath.Got tt, w') /\
    AddToPath.reg w' = Some (new, 2%Z) /\
    AddToPath.entries new
    = AddToPath.entries "C:\bin; ;C:\Program Files\Git;;" ++ AddToPath.entries "D:\tools" /\
    (PyStr.all_chars (fun c => negb (Ascii.eqb c ";")) "D:\tools" = true ->
     PyStr.strip "D:\tools" <> "" ->
     AddToPath.entries "D:\tools" = ["D:\tools"]).
Proof.
  apply (add_path_keeps_entries string (fun s => s) "D:\tools"
           (AddToPath.World (Some ("C:\bin; ;C:\Program Files\Git;;", 2%Z)) 0 [])).
  reflexivity.
Defined.



(** ** [telegram.py]: [Telegram.validate] *)

Lemma prefix_91_prepended v : String.prefix "+91" ("+91" ++ v) = true.
Proof.
  simpl. repeat (destruct (ascii_dec _ _); [|congruence]).
  now destruct v.
Qed.

(** A phone number that [validate] returns starts with [+91], has 13
    characters, and is returned unchanged when validated again. *)
Theorem validate_number_idempotent (value : string) (r : Telegram.validated) :
  Telegram.validate value Telegram.number = Telegram.Returned r ->
  exists s,
    r = Telegram.VStr s /\
    String.prefix "+91" s = true /\
    String.length s = 13 /\
    Telegram.validate s Telegram.number = Telegram.Returned (Telegram.VStr s).
Proof.
  unfold Telegram.validate.
  set (value' := if String.prefix "+91" value then value else ("+91" ++ value)%string).
  assert (Hpre : String.prefix "+91" value' = true).
  { unfold value'. destruct (String.prefix "+91" value) eqn:E; auto.
    apply prefix_91_prepended. }
  destruct ((String.length value' =? 13)%nat && PyStr.isdigit (PyStr.tail value'))
    eqn:Hok; [|discriminate].
  intros H. inversion H; subst r. exists value'.
  rewrite Hpre, Hok. repeat split; auto.
  apply andb_prop in Hok. destruct Hok as [Hlen _]. now apply Nat.eqb_eq in Hlen.
Qed.

Lemma validate_number_idempotent_witness :
  exists s,
    Telegram.VStr "+919876543210" = Telegram.VStr s /\
    String.prefix "+91" s = true /\
    String.length s = 13 /\
    Telegram.validate s Telegram.number = Telegram.Returned (Telegram.VStr s).
Proof.
  apply (validate_number_idempotent "9876543210"). reflexivity.
Defined.

(** Ten digits are accepted as a phone number and returned with [+91] in
    front. *)
Theorem validate_number_ten_digits (digits : string) :
  String.length digits = 10 ->
  PyStr.all_chars PyStr.is_digit digits = true ->
  Telegram.validate digits Telegram.number
  = Telegram.Returned (Telegram.VStr ("+91" ++ digits)).
Proof.
  intros Hlen Hdig. unfold Telegram.validate.
  assert (Hpre : String.prefix "+91" digits = false).
  { destruct digits as [|c rest]; [reflexivity|]. cbn [String.prefix].
    destruct (ascii_dec "+" c) as [<-|]; [|reflexivity].
    cbn in Hdig. discriminate. }
  rewrite Hpre. simpl String.length. rewrite Hlen. simpl.
  now rewrite Hdig.
Qed.

Lemma validate_number_ten_digits_witness :
  Telegram.validate "9876543210" Telegram.number
  = Telegram.Returned (Telegram.VStr ("+91" ++ "9876543210")).
Proof.
  apply (validate_number_ten_digits "9876543210"); reflexivity.
Defined.

Lemma is_decimal_value c :
  PyStr.is_decimal c = true -> (0 <= Z.of_nat (PyStr.code c) - 48 <= 9)%Z.
Proof.
  unfold PyStr.is_decimal. intros H. apply andb_prop in H. destruct H as [H1 H2].
  apply Nat.leb_le in H1, H2. lia.
Qed.

Lemma int_from_range s : forall acc r,
  (0 <= acc)%Z ->
  PyStr.int_from acc s = Some r ->
  (acc * 10 ^ Z.of_nat (String.length s) <= r
   < (acc + 1) * 10 ^ Z.of_nat (String.length s))%Z.
Proof.
  induction s as [|c rest IH]; intros acc r Hacc H.
  - simpl in *. inversion H; subst. lia.
  - cbn [PyStr.int_from] in H.
    destruct (PyStr.is_decimal c) eqn:Hc; [|discriminate].
    apply is_decimal_value in Hc. apply IH in H; [|lia].
    cbn [String.length]. rewrite Nat2Z.inj_succ, Z.pow_succ_r by lia.
    assert (0 < 10 ^ Z.of_nat (String.length rest))%Z by (apply Z.pow_pos_nonneg; lia).
    nia.
Qed.

Lemma int_from_none s : forall acc,
  PyStr.all_chars PyStr.is_decimal s = false -> PyStr.int_from acc s = None.
Proof.
  induction s as [|c rest IH]; intros acc H; simpl in *; [discriminate|].
  destruct (PyStr.is_decimal c); simpl in H; auto.
Qed.

(** An API id that [validate] returns is the number that eight decimal
    digits write: it lies between 0 and 99999999. *)
Theorem validate_api_id_range (value : string) (r : Telegram.validated) :
  Telegram.validate value Telegram.api_id = Telegram.Returned r ->
  exists n,
    r = Telegram.VInt n /\ (0 <= n < 10 ^ 8)%Z /\
    String.length value = 8 /\ PyStr.all_chars PyStr.is_decimal value = true.
Proof.
  unfold Telegram.validate.
  destruct (PyStr.isdigit value && (String.length value =? 8)%nat) eqn:Hok;
    [|discriminate].
  apply andb_prop in Hok. destruct Hok as [_ Hlen]. apply Nat.eqb_eq in Hlen.
  destruct (PyStr.int value) as [n|] eqn:Hint; [|discriminate].
  intros H. inversion H; subst r. exists n. split; auto.
  unfold PyStr.int in Hint.
  pose proof (int_from_range value 0 n ltac:(lia) Hint) as Hr.
  rewrite Hlen in Hr. repeat split; auto; try lia.
  destruct (PyStr.all_chars PyStr.is_decimal value) eqn:Hd; auto.
  rewrite (int_from_none _ _ Hd) in Hint. discriminate.
Qed.

Lemma validate_api_id_range_witness :
  exists n,
    Telegram.VInt 1234567 = Telegram.VInt n /\ (0 <= n < 10 ^ 8)%Z /\
    String.length "01234567" = 8 /\ PyStr.all_chars PyStr.is_decimal "01234567" = true.
Proof.
  apply (validate_api_id_range "01234567"). reflexivity.
Defined.

(** Eight characters that [isdigit()] accepts but that are not all decimal
    digits (a superscript two, three or one among them) pass the check of
    the API id and make [int()] raise: the call ends in a [ValueError], not
    in the error message with exit code 5. *)
Theorem validate_api_id_superscript (value : string) :
  String.length value = 8 ->
  PyStr.all_chars PyStr.is_digit value = true ->
  PyStr.all_chars PyStr.is_decimal value = false ->
  Telegram.validate value Telegram.api_id = Telegram.ValueError.
Proof.
  intros Hlen Hdig Hdec. unfold Telegram.validate.
  assert (Hisd : PyStr.isdigit value = true).
  { destruct value; [discriminate Hlen|exact Hdig]. }
  rewrite Hisd, Hlen. simpl. unfold PyStr.int. now rewrite int_from_none.
Qed.

Lemma validate_api_id_superscript_witness :
  Telegram.validate ("1234567" ++ String (ascii_of_nat 178) "") Telegram.api_id
  = Telegram.ValueError.
Proof.
  apply (validate_api_id_superscript ("1234567" ++ String (ascii_of_nat 178) ""));
    reflexivity.
Defined.

Lemma hex_not_space c : PyStr.is_hex c = true -> PyStr.is_ascii_space c = false.
Proof.
  destruct c as [[] [] [] [] [] [] [] []]; vm_compute; congruence.
Qed.

Lemma fromhex_digits : forall n s,
  String.length s = 2 * n ->
  PyStr.all_chars PyStr.is_hex s = true ->
  exists bytes, PyStr.fromhex s = Some bytes /\ List.length bytes = n.
Proof.
  induction n as [|n IH]; intros s Hlen Hhex.
  - destruct s; [|discriminate]. exists []. auto.
  - destruct s as [|c [|c' rest]]; try (simpl in Hlen; lia).
    cbn [PyStr.all_chars] in Hhex.
    apply andb_prop in Hhex. destruct Hhex as [Hc Hhex].
    apply andb_prop in Hhex. destruct Hhex as [Hc' Hrest].
    destruct (IH rest) as (bytes & Hb & Hn); auto.
    { simpl in Hlen. lia. }
    cbn [PyStr.fromhex]. rewrite (hex_not_space _ Hc).
    unfold PyStr.is_hex in Hc, Hc'.
    destruct (PyStr.hex_value c) as [top|]; [|discriminate].
    destruct (PyStr.hex_value c') as [bot|]; [|discriminate].
    rewrite Hb. eexists. split; [reflexivity|]. simpl. now rewrite Hn.
Qed.

Lemma fromhex_shape : forall n s bytes,
  String.length s <= n ->
  PyStr.fromhex s = Some bytes ->
  PyStr.count_chars PyStr.is_hex s = 2 * List.length bytes /\
  PyStr.all_chars (fun c => PyStr.is_hex c || PyStr.is_ascii_space c) s = true.
Proof.
  induction n as [|n IH]; intros s bytes Hlen H.
  - destruct s; [|simpl in Hlen; lia]. simpl in H. inversion H. auto.
  - destruct s as [|c rest]; [simpl in H; inversion H; auto|].
    cbn [PyStr.fromhex] in H. cbn [PyStr.count_chars PyStr.all_chars].
    destruct (PyStr.is_ascii_space c) eqn:Hsp.
    + destruct (IH rest bytes) as [Hcount Hall]; auto.
      { simpl in Hlen. lia. }
      assert (Hnh : PyStr.is_hex c = false).
      { destruct (PyStr.is_hex c) eqn:E; auto.
        apply hex_not_space in E. congruence. }
      rewrite Hnh, Hcount, Hall. auto.
    + destruct (PyStr.hex_value c) as [top|] eqn:Htop; [|discriminate].
      destruct rest as [|c' rest']; [discriminate|].
      destruct (PyStr.hex_value c') as [bot|] eqn:Hbot; [|discriminate].
      destruct (PyStr.fromhex rest') as [bytes'|] eqn:Hrest; [|discriminate].
      inversion H; subst bytes.
      destruct (IH rest' bytes') as [Hcount Hall]; auto.
      { simpl in Hlen. lia. }
      assert (Hc : PyStr.is_hex c = true) by (unfold PyStr.is_hex; now rewrite Htop).
      assert (Hc' : PyStr.is_hex c' = true) by (unfold PyStr.is_hex; now rewrite Hbot).
      cbn [PyStr.count_chars PyStr.all_chars].
      rewrite Hc, Hc', Hcount, Hall. simpl. split; [lia|reflexivity].
Qed.

(** Any 32 hexadecimal digits are accepted as an API hash, and an accepted
    value is returned as it was given: it holds exactly 32 hexadecimal
    digits, and whatever else it holds is ASCII whitespace. *)
Theorem validate_api_hash_accepts (value : string) :
  (String.length value = 32 ->
   PyStr.all_chars PyStr.is_hex value = true ->
   Telegram.validate value Telegram.api_hash
   = Telegram.Returned (Telegram.VStr value)) /\
  (forall r,
     Telegram.validate value Telegram.api_hash = Telegram.Returned r ->
     r = Telegram.VStr value /\
     PyStr.count_chars PyStr.is_hex value = 32 /\
     PyStr.all_chars (fun c => PyStr.is_hex c || PyStr.is_ascii_space c) value = true).
Proof.
  unfold Telegram.validate. split.
  - intros Hlen Hhex.
    destruct (fromhex_digits 16 value Hlen Hhex) as (bytes & -> & ->). reflexivity.
  - intros r H.
    destruct (PyStr.fromhex value) as [bytes|] eqn:Hf; [|discriminate].
    destruct (List.length bytes =? 16)%nat eqn:Hn; [|discriminate].
    apply Nat.eqb_eq in Hn. inversion H; subst r.
    destruct (fromhex_shape _ value bytes (le_n _) Hf) as [Hcount Hall].
    rewrite Hn in Hcount. auto.
Qed.

Lemma validate_api_hash_accepts_witness :
  Telegram.validate "0123456789abcdef0123456789ABCDEF" Telegram.api_hash
  = Telegram.Returned (Telegram.VStr "0123456789abcdef0123456789ABCDEF") /\
  (Telegram.VStr "0123 4567 89ab cdef 0123 4567 89AB CDEF"
   = Telegram.VStr "0123 4567 89ab cdef 0123 4567 89AB CDEF" /\
   PyStr.count_chars PyStr.is_hex "0123 4567 89ab cdef 0123 4567 89AB CDEF" = 32 /\
   PyStr.all_chars (fun c => PyStr.is_hex c || PyStr.is_ascii_space c)
     "0123 4567 89ab cdef 0123 4567 89AB CDEF" = true).
Proof.
  split.
  - apply (proj1 (validate_api_hash_accepts "0123456789abcdef0123456789ABCDEF"));
      reflexivity.
  - apply (proj2 (validate_api_hash_accepts "0123 4567 89ab cdef 0123 4567 89AB CDEF")).
    reflexivity.
Defined.

Lemma add_profile_replaces_past_head_witness :
  exists s',
    add_profile (JDict Sample.C)
      (Document (Sample.settings [Sample.B; Sample.bare; Sample.A])) = (Ok true, s') /\
    profiles s'
    = (Ok (JList (map JDict ((Sample.B :: [Sample.bare]) ++ [] ++ [Sample.C]))), s').
Proof.
  apply (add_profile_replaces_past_head _ Sample.B [Sample.bare] [] Sample.A Sample.C
           "/x" "{1}"); try reflexivity; repeat constructor.
Defined.
